(** * The build form of the cx_Freeze front end (HomePage component)

    A shallow embedding of the client-side state and of the three event
    handlers of the page component: [handleArchiveSelect], [resetForm] and
    [onSubmit]; then of the handlers written in the markup (the edits of
    the build options, [onDrop] and the change of the file input), of the
    values derived for the view ([isBusy], [dropLabel] and what is shown),
    and of the page with its requests in flight.

    Conventions of the model.
    - A JavaScript string is a [string]: a sequence of code units, here
      restricted to the range U+0000..U+00FF (one [ascii] per code unit).
    - A value that comes out of [response.json()] is a [jsval].  The state
      cells [statusMessage] and [logs] hold such values, because the handler
      stores what the server sent without checking its shape.
    - A handler is a computation in the monad [M]: it emits an ordered trace
      of events (state writes and calls to the browser) and either returns
      or throws.  A handler reads the state cells of the render in which it
      was created; its own writes are queued and become visible afterwards,
      so the next state is obtained by replaying the trace ([exec]).
    - The awaited promises ([fetch], [response.json()], [response.blob()])
      are the operations that may reject; their outcome is given by the
      [World] and the [Response]. *)

From Stdlib Require Import List String Ascii Bool Arith NArith ZArith Lia.
Import ListNotations.
Open Scope string_scope.
Open Scope list_scope.

Set Warnings "-register-all".

(** ** JavaScript values and string primitives *)

Module JS.

(** The result of JSON.parse.  A number is held as the bit pattern of its
    IEEE-754 binary64 representation; an object as its own properties in
    insertion order. *)
Inductive jsval : Type :=
| JNull
| JBool (b : bool)
| JNum (bits : Z)
| JStr (s : string)
| JArr (items : list jsval)
| JObj (props : list (string * jsval)).

(** What a [throw] or a rejected promise carries: an instance of [Error]
    with its message, or any other value. *)
Inductive thrown : Type :=
| ErrorInstance (message : string)
| NonError (v : jsval).

Definition is_zero_bits (bits : Z) : bool :=
  Z.eqb (Z.land bits 0x7FFFFFFFFFFFFFFF) 0.

Definition is_nan_bits (bits : Z) : bool :=
  Z.eqb (Z.land (Z.shiftr bits 52) 0x7FF) 0x7FF
  && negb (Z.eqb (Z.land bits 0xFFFFFFFFFFFFF) 0).

(** ToBoolean. *)
Definition truthy (v : jsval) : bool :=
  match v with
  | JNull => false
  | JBool b => b
  | JNum bits => negb (is_zero_bits bits || is_nan_bits bits)
  | JStr s => negb (String.eqb s "")
  | JArr _ => true
  | JObj _ => true
  end.

(** ToBoolean of an optional value: [None] is [undefined]. *)
Definition truthy_opt (o : option jsval) : bool :=
  match o with
  | None => false
  | Some v => truthy v
  end.

(** Array.isArray. *)
Definition isArray (o : option jsval) : bool :=
  match o with
  | Some (JArr _) => true
  | _ => false
  end.

Fixpoint assoc (k : string) (props : list (string * jsval)) : option jsval :=
  match props with
  | [] => None
  | (k', v) :: rest => if String.eqb k k' then Some v else assoc k rest
  end.

(** Reading the property [k] of a parsed value; [None] is [undefined].
    Only the properties "message" and "details" are ever read: they exist on
    an object that has them as own properties and on nothing else. *)
Definition get_prop (v : jsval) (k : string) : option jsval :=
  match v with
  | JObj props => assoc k props
  | _ => None
  end.

(** [a ?? b]. *)
Definition nullish (a : option jsval) (b : jsval) : jsval :=
  match a with
  | None => b
  | Some JNull => b
  | Some v => v
  end.

(** ToBoolean of a string, and [a || b] on strings. *)
Definition nonempty (s : string) : bool := negb (String.eqb s "").

Definition or_else (a b : string) : string := if nonempty a then a else b.

(** String.prototype.endsWith. *)
Definition endsWith (s suffix : string) : bool :=
  let n := String.length s in
  let m := String.length suffix in
  Nat.leb m n && String.eqb (substring (n - m) m s) suffix.

(** The class \s of a regular expression, on code units below 256:
    tab, line feed, vertical tab, form feed, carriage return, space and
    no-break space. *)
Definition is_space (c : ascii) : bool :=
  let n := N_of_ascii c in
  (((9 <=? n) && (n <=? 13)) || (n =? 32) || (n =? 160))%N.

(** [s.replace(/\s+/g, "-")]: scanning from the left, every maximal run of
    white space becomes one hyphen.  [in_run] tells that the previous code
    unit belonged to the run being replaced. *)
Fixpoint replace_runs (in_run : bool) (s : string) : string :=
  match s with
  | EmptyString => EmptyString
  | String c rest =>
      if is_space c
      then if in_run then replace_runs true rest
           else String "-" (replace_runs true rest)
      else String c (replace_runs false rest)
  end.

Definition replace_spaces (s : string) : string := replace_runs false s.

(** The simple lower-case mapping of one code unit below 256. *)
Definition lower_char (c : ascii) : ascii :=
  let n := N_of_ascii c in
  if (((65 <=? n) && (n <=? 90))
      || ((192 <=? n) && (n <=? 222) && negb (n =? 215)))%N
  then ascii_of_N (n + 32)
  else c.

(** String.prototype.toLowerCase. *)
Fixpoint toLowerCase (s : string) : string :=
  match s with
  | EmptyString => EmptyString
  | String c rest => String (lower_char c) (toLowerCase rest)
  end.

(** The white space that [replace_spaces] skips after the first code unit
    of a run. *)
Fixpoint skip_spaces (s : string) : string :=
  match s with
  | EmptyString => EmptyString
  | String c rest => if is_space c then skip_spaces rest else s
  end.


End JS.
Import JS.

(** ** Data model *)

Inductive BuildStatus : Type := idle | working | success | error.

Record FormState : Type := mkFormState {
  appName : string;
  version : string;
  entryPoint : string;
  base : string;
  iconPath : string;
  includes : string;
  excludes : string;
  includeFiles : string;
  targetName : string
}.

Definition defaultFormState : FormState := {|
  appName := "MyApplication";
  version := "1.0.0";
  entryPoint := "main.py";
  base := "console";
  iconPath := "";
  includes := "";
  excludes := "";
  includeFiles := "";
  targetName := ""
|}.

(** A [File]: its name and its bytes ([size] is their number). *)
Record File : Type := mkFile {
  name : string;
  data : list Byte.byte
}.

Definition size (f : File) : nat := List.length (data f).

Definition Blob : Type := list Byte.byte.

(** The five state cells of the component. *)
Record State : Type := mkState {
  formState : FormState;
  status : BuildStatus;
  statusMessage : jsval;
  logs : list jsval;
  selectedArchive : option File
}.

Definition initialState : State := {|
  formState := defaultFormState;
  status := idle;
  statusMessage := JStr "";
  logs := [];
  selectedArchive := None
|}.

(** Object.entries(formState): the own properties in insertion order. *)
Definition entries (f : FormState) : list (string * string) :=
  [ ("appName", appName f);
    ("version", version f);
    ("entryPoint", entryPoint f);
    ("base", base f);
    ("iconPath", iconPath f);
    ("includes", includes f);
    ("excludes", excludes f);
    ("includeFiles", includeFiles f);
    ("targetName", targetName f) ].

(** A FormData body: its parts in the order they were appended. *)
Inductive part : Type :=
| FilePart (f : File)
| TextPart (s : string).

Definition FormData : Type := list (string * part).

Definition append (p : FormData) (key : string) (v : part) : FormData :=
  p ++ [(key, v)].

(** What the handler reads of a Response. *)
Record Response : Type := mkResponse {
  ok : bool;
  json : thrown + jsval;
  blob : thrown + Blob
}.

(** The browser around the component. *)
Record World : Type := mkWorld {
  fetch : string -> string -> FormData -> thrown + Response;
  createObjectURL : Blob -> string
}.

(** ** Handlers: a trace of events, and a result or an exception *)

Inductive event : Type :=
| PreventDefault
| SetFormState (f : FormState)
| SetStatus (st : BuildStatus)
| SetStatusMessage (m : jsval)
| SetLogs (l : list jsval)
| SetSelectedArchive (a : option File)
| Fetch (url method : string) (body : FormData)
| ReadJson
| ReadBlob
| CreateObjectURL (b : Blob)
| AnchorClick (href download : string)
| RevokeObjectURL (url : string).

Inductive result (A : Type) : Type :=
| Ok (a : A)
| Thrown (e : thrown).
Arguments Ok {A} a.
Arguments Thrown {A} e.

Definition M (A : Type) : Type := (list event * result A)%type.

Definition ret {A : Type} (a : A) : M A := ([], Ok a).

Definition bind {A B : Type} (m : M A) (k : A -> M B) : M B :=
  match m with
  | (t, Ok a) => let (t', r) := k a in (t ++ t', r)
  | (t, Thrown e) => (t, Thrown e)
  end.

Definition throw {A : Type} (e : thrown) : M A := ([], Thrown e).

Definition emit (ev : event) : M unit := ([ev], Ok tt).

Definition try_catch {A : Type} (m : M A) (h : thrown -> M A) : M A :=
  match m with
  | (t, Ok a) => (t, Ok a)
  | (t, Thrown e) => let (t', r) := h e in (t ++ t', r)
  end.

(** [await p] for a promise whose outcome is known. *)
Definition await {A : Type} (ev : event) (p : thrown + A) : M A :=
  bind (emit ev) (fun _ =>
    match p with
    | inl e => throw e
    | inr a => ret a
    end).

Declare Scope handler_scope.
Delimit Scope handler_scope with handler.
Notation "x <- m ;; k" := (bind m (fun x => k))
  (at level 200, m at level 100, k at level 200) : handler_scope.
Notation "m ;; k" := (bind m (fun _ => k))
  (at level 200, k at level 200) : handler_scope.
Notation "'try' m 'catch' h" := (try_catch m h)
  (at level 10, m at level 200, h at level 200) : handler_scope.
Open Scope handler_scope.

Definition trace {A : Type} (m : M A) : list event := fst m.

Definition outcome {A : Type} (m : M A) : result A := snd m.

(** The effect of one event on the state cells. *)
Definition apply_event (s : State) (ev : event) : State :=
  match ev with
  | SetFormState f =>
      mkState f (status s) (statusMessage s) (logs s) (selectedArchive s)
  | SetStatus st =>
      mkState (formState s) st (statusMessage s) (logs s) (selectedArchive s)
  | SetStatusMessage m =>
      mkState (formState s) (status s) m (logs s) (selectedArchive s)
  | SetLogs l =>
      mkState (formState s) (status s) (statusMessage s) l (selectedArchive s)
  | SetSelectedArchive a =>
      mkState (formState s) (status s) (statusMessage s) (logs s) a
  | _ => s
  end.

Definition replay (t : list event) (s : State) : State :=
  fold_left apply_event t s.

Definition exec {A : Type} (m : M A) (s : State) : State :=
  replay (trace m) s.

Definition is_fetch (ev : event) : bool :=
  match ev with
  | Fetch _ _ _ => true
  | _ => false
  end.

(** The network calls of a trace. *)
Definition network_calls (t : list event) : list event := filter is_fetch t.

Definition is_state_write (ev : event) : bool :=
  match ev with
  | SetFormState _ | SetStatus _ | SetStatusMessage _
  | SetLogs _ | SetSelectedArchive _ => true
  | _ => false
  end.

(** ** The component *)

Definition setFormState (f : FormState) : M unit := emit (SetFormState f).
Definition setStatus (st : BuildStatus) : M unit := emit (SetStatus st).
Definition setStatusMessage (m : jsval) : M unit := emit (SetStatusMessage m).
Definition setLogs (l : list jsval) : M unit := emit (SetLogs l).
Definition setSelectedArchive (a : option File) : M unit :=
  emit (SetSelectedArchive a).

Definition handleArchiveSelect (file : option File) : M unit :=
  match file with
  | None => setSelectedArchive None
  | Some f =>
      if negb (endsWith (name f) ".zip")
      then
        setStatus error ;;
        setStatusMessage (JStr "Only .zip archives are supported.")
      else
        setStatus idle ;;
        setStatusMessage (JStr "") ;;
        setSelectedArchive (Some f)
  end.

Definition resetForm : M unit :=
  setFormState defaultFormState ;;
  setStatus idle ;;
  setStatusMessage (JStr "") ;;
  setLogs [] ;;
  setSelectedArchive None.

(** The request body built by [onSubmit]. *)
Definition payload (archive : File) (fs : FormState) : FormData :=
  fold_left
    (fun p kv => if nonempty (snd kv) then append p (fst kv) (TextPart (snd kv)) else p)
    (entries fs)
    (append [] "bundle" (FilePart archive)).

Definition buildName (fs : FormState) : string :=
  or_else (or_else (targetName fs)
                   (toLowerCase (replace_spaces (appName fs))))
          "build".

(** The [download] attribute of the anchor. *)
Definition downloadName (fs : FormState) : string := (buildName fs ++ ".zip")%string.

(** [const { message, details } = v]: a TypeError on null (its text is
    chosen by the engine and is dropped by the handler that catches it). *)
Definition destructure (v : jsval) : M (option jsval * option jsval) :=
  match v with
  | JNull => throw (ErrorInstance "Cannot destructure")
  | _ => ret (get_prop v "message", get_prop v "details")
  end.

Definition details_items (details : option jsval) : list jsval :=
  match details with
  | Some (JArr l) => l
  | _ => []
  end.

(** [onSubmit], created in the render [r] (whose cells it reads). *)
Definition onSubmit (w : World) (r : State) : M unit :=
  emit PreventDefault ;;
  setLogs [] ;;
  match selectedArchive r with
  | None =>
      setStatus error ;;
      setStatusMessage (JStr "Upload a project archive before building.")
  | Some archive =>
      setStatus working ;;
      setStatusMessage
        (JStr "Uploading and building executable with cx_Freeze...") ;;
      let body := payload archive (formState r) in
      try (
        response <- await (Fetch "/api/build" "POST" body)
                          (fetch w "/api/build" "POST" body) ;;
        if negb (ok response)
        then
          setStatus error ;;
          try (
            v <- await ReadJson (json response) ;;
            md <- destructure v ;;
            setStatusMessage (nullish (fst md) (JStr "Build failed.")) ;;
            if truthy_opt (snd md) && isArray (snd md)
            then setLogs (details_items (snd md))
            else ret tt
          ) catch (fun _ => setStatusMessage (JStr "Build failed."))
        else
          let file_name := downloadName (formState r) in
          b <- await ReadBlob (blob response) ;;
          let url := createObjectURL w b in
          emit (CreateObjectURL b) ;;
          emit (AnchorClick url file_name) ;;
          emit (RevokeObjectURL url) ;;
          setStatus success ;;
          setStatusMessage
            (JStr "Build succeeded! Your executable archive has downloaded.")
      ) catch (fun e =>
        setStatus error ;;
        setStatusMessage
          (match e with
           | ErrorInstance message => JStr message
           | NonError _ => JStr "Unexpected error while building."
           end))
  end.

(** One submission from the state [s]. *)
Definition submit (w : World) (s : State) : State := exec (onSubmit w s) s.

(** One archive selection or drop from the state [s]. *)
Definition select (file : option File) (s : State) : State :=
  exec (handleArchiveSelect file) s.

(** One click on Reset or Clear from the state [s]. *)
Definition reset (s : State) : State := exec resetForm s.

(** ** Auxiliary definitions: the paths of a submission, and sample inputs *)

Definition working_message : jsval :=
  JStr "Uploading and building executable with cx_Freeze...".

Definition success_message : jsval :=
  JStr "Build succeeded! Your executable archive has downloaded.".

(** The events of a submission up to and including the request. *)
Definition request_prefix (a : File) (fs : FormState) : list event :=
  [ PreventDefault; SetLogs []; SetStatus working;
    SetStatusMessage working_message;
    Fetch "/api/build" "POST" (payload a fs) ].

(** What the handler does with the body of a response that is not ok. *)
Definition failure_events (body : thrown + jsval) : list event :=
  match body with
  | inl _ => [SetStatusMessage (JStr "Build failed.")]
  | inr JNull => [SetStatusMessage (JStr "Build failed.")]
  | inr v =>
      SetStatusMessage (nullish (get_prop v "message") (JStr "Build failed."))
      :: match get_prop v "details" with
         | Some (JArr l) => [SetLogs l]
         | _ => []
         end
  end.

Definition catch_message (e : thrown) : jsval :=
  match e with
  | ErrorInstance message => JStr message
  | NonError _ => JStr "Unexpected error while building."
  end.

Definition notes_txt : File := mkFile "notes.txt" [].

Definition project_zip : File := mkFile "project.zip" [].

Definition state_with_project : State :=
  mkState defaultFormState idle (JStr "") [] (Some project_zip).

Definition state_after_failure : State :=
  mkState defaultFormState error (JStr "bad entry point")
          [JStr "line1"; JStr "line2"] None.

(** A world in which the request cannot be sent. *)
Definition offline : World :=
  mkWorld (fun _ _ _ => inl (ErrorInstance "Failed to fetch"))
          (fun _ => "blob:0").

(** A server that answers with a body that cannot be read. *)
Definition broken_body : World :=
  mkWorld (fun _ _ _ =>
             inr (mkResponse true (inl (ErrorInstance "unused"))
                             (inl (NonError (JStr "stream closed")))))
          (fun _ => "blob:0").

Ltac failure_cases :=
  repeat match goal with
         | |- context [assoc ?k ?props] =>
             let d := fresh "d" in
             destruct (assoc k props) as [d | ]; [destruct d | ]
         end;
  cbn.

Definition bad_entry_point_body : jsval :=
  JObj [ ("message", JStr "bad entry point");
         ("details", JArr [JStr "line1"; JStr "line2"]) ].

Definition bad_entry_point : Response :=
  mkResponse false (inr bad_entry_point_body) (inl (ErrorInstance "unused")).

(** A server that refuses the build with a diagnostic. *)
Definition refusing : World :=
  mkWorld (fun _ _ _ => inr bad_entry_point) (fun _ => "blob:0").

Definition garbled : Response :=
  mkResponse false (inl (ErrorInstance "Unexpected token < in JSON"))
             (inl (ErrorInstance "unused")).

Definition text_part (kv : string * string) : string * part :=
  (fst kv, TextPart (snd kv)).

Definition has_value (kv : string * string) : bool := nonempty (snd kv).

Definition my_app_options : FormState :=
  mkFormState "My App" "" "main.py" "gui" "" "numpy,requests" "" "" "".

Definition state_my_app : State :=
  mkState my_app_options idle (JStr "") [] (Some project_zip).

Definition is_download (ev : event) : bool :=
  match ev with
  | AnchorClick _ _ => true
  | _ => false
  end.

(** The files a trace saves. *)
Definition downloads (t : list event) : list event := filter is_download t.

Definition output_bytes : Blob := [Byte.x50; Byte.x4b; Byte.x05; Byte.x06].

(** A server that builds. *)
Definition serving : World :=
  mkWorld (fun _ _ _ =>
             inr (mkResponse true (inl (ErrorInstance "unused"))
                             (inr output_bytes)))
          (fun _ => "blob:0").

(** ** Field edits, file drops, derived values and the page as a whole *)

(** The nine build options. *)
Inductive Field : Type :=
| FAppName | FVersion | FEntryPoint | FBase | FIconPath
| FIncludes | FExcludes | FIncludeFiles | FTargetName.

Definition all_fields : list Field :=
  [ FAppName; FVersion; FEntryPoint; FBase; FIconPath;
    FIncludes; FExcludes; FIncludeFiles; FTargetName ].

Definition field_key (k : Field) : string :=
  match k with
  | FAppName => "appName"
  | FVersion => "version"
  | FEntryPoint => "entryPoint"
  | FBase => "base"
  | FIconPath => "iconPath"
  | FIncludes => "includes"
  | FExcludes => "excludes"
  | FIncludeFiles => "includeFiles"
  | FTargetName => "targetName"
  end.

(** [formState.key]. *)
Definition field_value (k : Field) (fs : FormState) : string :=
  match k with
  | FAppName => appName fs
  | FVersion => version fs
  | FEntryPoint => entryPoint fs
  | FBase => base fs
  | FIconPath => iconPath fs
  | FIncludes => includes fs
  | FExcludes => excludes fs
  | FIncludeFiles => includeFiles fs
  | FTargetName => targetName fs
  end.

(** [{ ...state, key: value }]. *)
Definition with_field (k : Field) (value : string) (fs : FormState)
  : FormState :=
  match k with
  | FAppName =>
      mkFormState value (version fs) (entryPoint fs) (base fs) (iconPath fs)
                  (includes fs) (excludes fs) (includeFiles fs) (targetName fs)
  | FVersion =>
      mkFormState (appName fs) value (entryPoint fs) (base fs) (iconPath fs)
                  (includes fs) (excludes fs) (includeFiles fs) (targetName fs)
  | FEntryPoint =>
      mkFormState (appName fs) (version fs) value (base fs) (iconPath fs)
                  (includes fs) (excludes fs) (includeFiles fs) (targetName fs)
  | FBase =>
      mkFormState (appName fs) (version fs) (entryPoint fs) value (iconPath fs)
                  (includes fs) (excludes fs) (includeFiles fs) (targetName fs)
  | FIconPath =>
      mkFormState (appName fs) (version fs) (entryPoint fs) (base fs) value
                  (includes fs) (excludes fs) (includeFiles fs) (targetName fs)
  | FIncludes =>
      mkFormState (appName fs) (version fs) (entryPoint fs) (base fs)
                  (iconPath fs) value (excludes fs) (includeFiles fs)
                  (targetName fs)
  | FExcludes =>
      mkFormState (appName fs) (version fs) (entryPoint fs) (base fs)
                  (iconPath fs) (includes fs) value (includeFiles fs)
                  (targetName fs)
  | FIncludeFiles =>
      mkFormState (appName fs) (version fs) (entryPoint fs) (base fs)
                  (iconPath fs) (includes fs) (excludes fs) value
                  (targetName fs)
  | FTargetName =>
      mkFormState (appName fs) (version fs) (entryPoint fs) (base fs)
                  (iconPath fs) (includes fs) (excludes fs) (includeFiles fs)
                  value
  end.

(** onChange of a text input or of the select:
    [setFormState((state) => ({ ...state, key: event.target.value }))].
    The updater runs on the form state that is current when the write is
    processed. *)
Definition onFieldChange (k : Field) (value : string) (s : State) : State :=
  apply_event s (SetFormState (with_field k value (formState s))).

(** [const [file] = Array.from(files)] followed by [file ?? null]. *)
Definition first_file (files : list File) : option File :=
  match files with
  | [] => None
  | file :: _ => Some file
  end.

(** onChange of the hidden file input; [event.target.files] may be null. *)
Definition onFileInputChange (files : option (list File)) : M unit :=
  handleArchiveSelect
    (first_file (match files with Some l => l | None => [] end)).

(** onDrop of the drop zone.  It first calls preventDefault and
    stopPropagation on the DOM event; the second call has no event of its
    own in the trace. *)
Definition onDrop (files : list File) : M unit :=
  emit PreventDefault ;;
  handleArchiveSelect (first_file files).

(** [status === "working"]: what disables the inputs and the buttons. *)
Definition isBusy (s : State) : bool :=
  match status s with
  | working => true
  | _ => false
  end.

Definition dropLabel (s : State) : string :=
  match selectedArchive s with
  | Some f => ("Selected: " ++ name f)%string
  | None =>
      "Drag & drop a zipped Python project (with requirements) or click to browse"
  end.





Definition is_body_read (ev : event) : bool :=
  match ev with
  | ReadJson | ReadBlob => true
  | _ => false
  end.

(** Events that leave the selected archive and the build options alone. *)
Definition keeps_inputs (ev : event) : bool :=
  match ev with
  | SetSelectedArchive _ | SetFormState _ => false
  | _ => true
  end.

(** The part of a trace that runs before the handler first suspends on the
    request, and the part that runs after the response has arrived. *)
Fixpoint until_fetch (t : list event) : list event * list event :=
  match t with
  | [] => ([], [])
  | ev :: rest =>
      if is_fetch ev then ([ev], rest)
      else let (before, after) := until_fetch rest in (ev :: before, after)
  end.

(** The page: the state cells, and for every submission whose request has
    been issued the events its handler has still to emit. *)
Record Page : Type := mkPage {
  cells : State;
  inflight : list (list event)
}.

Definition initialPage : Page := mkPage initialState [].

(** What can happen to the page.  [ActResume i] lets the [i]-th unfinished
    submission emit its next event; the outcome of its request was fixed by
    the world given to [ActSubmit]. *)
Inductive action : Type :=
| ActChange (k : Field) (value : string)
| ActDrop (files : list File)
| ActPick (files : option (list File))
| ActReset
| ActSubmit (w : World)
| ActResume (i : nat).

Fixpoint resume (i : nat) (pending : list (list event)) (s : State)
         {struct pending} : State * list (list event) :=
  match pending with
  | [] => (s, [])
  | t :: more =>
      match i with
      | 0 =>
          match t with
          | [] => (s, more)
          | ev :: t' => (apply_event s ev, t' :: more)
          end
      | S j => let (s', more') := resume j more s in (s', t :: more')
      end
  end.

(** One step of the page.  The inputs, the select and the three buttons
    are disabled while [isBusy]; the drop zone and its file input are not. *)
Definition step (p : Page) (act : action) : Page :=
  match act with
  | ActChange k value =>
      if isBusy (cells p) then p
      else mkPage (onFieldChange k value (cells p)) (inflight p)
  | ActDrop files => mkPage (exec (onDrop files) (cells p)) (inflight p)
  | ActPick files =>
      mkPage (exec (onFileInputChange files) (cells p)) (inflight p)
  | ActReset =>
      if isBusy (cells p) then p
      else mkPage (reset (cells p)) (inflight p)
  | ActSubmit w =>
      if isBusy (cells p) then p
      else
        let (before, after) := until_fetch (trace (onSubmit w (cells p))) in
        mkPage (replay before (cells p))
               (if existsb is_fetch before then inflight p ++ [after]
                else inflight p)
  | ActResume i =>
      let (s', pending) := resume i (inflight p) (cells p) in
      mkPage s' pending
  end.

Definition run (acts : list action) (p : Page) : Page :=
  fold_left step acts p.

(** The selected archive, when there is one, has a name that ends in
    ".zip". *)
Definition archive_ok (s : State) : Prop :=
  match selectedArchive s with
  | None => True
  | Some f => endsWith (name f) ".zip" = true
  end.

Definition dot_zip : File := mkFile ".zip" [].

Definition null_message : Response :=
  mkResponse false
             (inr (JObj [("message", JNull); ("details", JArr [JStr "x"])]))
             (inl (ErrorInstance "unused")).

(** Every unfinished submission only has events left that keep the
    selected archive and the build options, and the selected archive is
    well named. *)
Definition page_ok (p : Page) : Prop :=
  archive_ok (cells p)
  /\ Forall (fun t => forallb keeps_inputs t = true) (inflight p).

Definition drop_prompt : string :=
  "Drag & drop a zipped Python project (with requirements) or click to browse".

(** ** The handler monad *)

Lemma trace_emit_bind {A : Type} (ev : event) (k : unit -> M A) :
  trace (bind (emit ev) k) = ev :: trace (k tt).
Proof.
  unfold trace, bind, emit. destruct (k tt) as [t r]. reflexivity.
Qed.

Lemma replay_app (t1 t2 : list event) (s : State) :
  replay (t1 ++ t2) s = replay t2 (replay t1 s).
Proof.
  unfold replay. apply fold_left_app.
Qed.

(** ** The paths through [onSubmit] *)

Section Paths.

Variable w : World.
Variable s : State.

Lemma onSubmit_no_archive :
  selectedArchive s = None ->
  onSubmit w s =
  ([ PreventDefault; SetLogs []; SetStatus error;
     SetStatusMessage (JStr "Upload a project archive before building.") ],
   Ok tt).
Proof.
  intros Hnone. unfold onSubmit. rewrite Hnone. reflexivity.
Qed.

Variable a : File.
Hypothesis Harchive : selectedArchive s = Some a.

Lemma onSubmit_fetch_rejected (e : thrown) :
  fetch w "/api/build" "POST" (payload a (formState s)) = inl e ->
  onSubmit w s =
  (request_prefix a (formState s)
   ++ [SetStatus error; SetStatusMessage (catch_message e)], Ok tt).
Proof.
  intros Hfetch. unfold onSubmit. rewrite Harchive.
  cbn -[payload]. rewrite Hfetch. cbn -[payload].
  destruct e; reflexivity.
Qed.

Lemma onSubmit_not_ok (resp : Response) :
  fetch w "/api/build" "POST" (payload a (formState s)) = inr resp ->
  ok resp = false ->
  onSubmit w s =
  (request_prefix a (formState s)
   ++ SetStatus error :: ReadJson :: failure_events (json resp), Ok tt).
Proof.
  intros Hfetch Hok. unfold onSubmit. rewrite Harchive.
  cbn -[payload]. rewrite Hfetch. cbn -[payload]. rewrite Hok.
  cbn -[payload].
  destruct (json resp) as [e | v]; [reflexivity |].
  destruct v as [ | b | bits | str | items | props ]; try reflexivity.
  cbn [failure_events get_prop destructure bind ret fst snd].
  destruct (assoc "details" props) as [d | ]; [ | reflexivity].
  destruct d; cbn [truthy_opt isArray truthy];
    rewrite ?Bool.andb_false_r; reflexivity.
Qed.

Lemma onSubmit_blob_rejected (resp : Response) (e : thrown) :
  fetch w "/api/build" "POST" (payload a (formState s)) = inr resp ->
  ok resp = true ->
  blob resp = inl e ->
  onSubmit w s =
  (request_prefix a (formState s)
   ++ [ReadBlob; SetStatus error; SetStatusMessage (catch_message e)], Ok tt).
Proof.
  intros Hfetch Hok Hblob. unfold onSubmit. rewrite Harchive.
  cbn -[payload]. rewrite Hfetch. cbn -[payload]. rewrite Hok.
  cbn -[payload]. rewrite Hblob. cbn -[payload].
  destruct e; reflexivity.
Qed.

Lemma onSubmit_downloaded (resp : Response) (b : Blob) :
  fetch w "/api/build" "POST" (payload a (formState s)) = inr resp ->
  ok resp = true ->
  blob resp = inr b ->
  onSubmit w s =
  (request_prefix a (formState s)
   ++ [ ReadBlob; CreateObjectURL b;
        AnchorClick (createObjectURL w b) (downloadName (formState s));
        RevokeObjectURL (createObjectURL w b);
        SetStatus success; SetStatusMessage success_message ], Ok tt).
Proof.
  intros Hfetch Hok Hblob. unfold onSubmit. rewrite Harchive.
  cbn -[payload downloadName]. rewrite Hfetch. cbn -[payload downloadName].
  rewrite Hok. cbn -[payload downloadName]. rewrite Hblob. reflexivity.
Qed.

End Paths.

(** ** The archive guard *)

Lemma substring_whole (t : string) : substring 0 (String.length t) t = t.
Proof.
  induction t as [ | c t IH]; [reflexivity | cbn; now rewrite IH].
Qed.

Lemma substring_after_prefix (p t : string) :
  substring (String.length p) (String.length t) (p ++ t)%string = t.
Proof.
  induction p as [ | c p IH]; cbn; [apply substring_whole | exact IH].
Qed.

Lemma substring_split (t : string) (k : nat) :
  k <= String.length t ->
  t = (substring 0 k t ++ substring k (String.length t - k) t)%string.
Proof.
  revert k. induction t as [ | c t IH]; intros k Hk.
  - destruct k; [reflexivity | cbn in Hk; lia].
  - destruct k as [ | k].
    + cbn. now rewrite substring_whole.
    + cbn in Hk. cbn. f_equal. apply IH. lia.
Qed.

Lemma length_append (p t : string) :
  String.length (p ++ t)%string = String.length p + String.length t.
Proof.
  induction p as [ | c p IH]; cbn; [reflexivity | now rewrite IH].
Qed.

(** [endsWith] decides that the string is some prefix followed by the
    suffix, code unit for code unit. *)
Lemma endsWith_spec (t suffix : string) :
  endsWith t suffix = true <-> exists p, t = (p ++ suffix)%string.
Proof.
  unfold endsWith. split.
  - intros H. apply andb_prop in H. destruct H as [Hle Heq].
    apply Nat.leb_le in Hle. apply String.eqb_eq in Heq.
    exists (substring 0 (String.length t - String.length suffix) t).
    assert (Hsplit := substring_split t
                        (String.length t - String.length suffix)).
    replace (String.length t - (String.length t - String.length suffix))
      with (String.length suffix) in Hsplit by lia.
    rewrite Heq in Hsplit. apply Hsplit. lia.
  - intros [p ->]. rewrite length_append.
    apply andb_true_intro. split.
    + apply Nat.leb_le. lia.
    + replace (String.length p + String.length suffix - String.length suffix)
        with (String.length p) by lia.
      rewrite substring_after_prefix. apply String.eqb_refl.
Qed.

(** The suffix is compared as it is written: an upper-case extension is
    not accepted. *)
Example endsWith_case_sensitive :
  endsWith "PROJECT.ZIP" ".zip" = false /\ endsWith "project.zip" ".zip" = true.
Proof.
  split; reflexivity.
Qed.

Lemma handleArchiveSelect_rejected (f : File) :
  endsWith (name f) ".zip" = false ->
  handleArchiveSelect (Some f) =
  ([ SetStatus error;
     SetStatusMessage (JStr "Only .zip archives are supported.") ], Ok tt).
Proof.
  intros H. unfold handleArchiveSelect. rewrite H. reflexivity.
Qed.

Lemma handleArchiveSelect_accepted (f : File) :
  endsWith (name f) ".zip" = true ->
  handleArchiveSelect (Some f) =
  ([ SetStatus idle; SetStatusMessage (JStr ""); SetSelectedArchive (Some f) ],
   Ok tt).
Proof.
  intros H. unfold handleArchiveSelect. rewrite H. reflexivity.
Qed.

(** C10: an absent candidate clears the selected archive and changes no
    other cell: the status, the status message and the log lines (and the
    build options) stay as they were, so a status [error] set before is
    still there. *)
Theorem select_null_clears_only_archive (s : State) :
  selectedArchive (select None s) = None
  /\ status (select None s) = status s
  /\ statusMessage (select None s) = statusMessage s
  /\ logs (select None s) = logs s
  /\ formState (select None s) = formState s.
Proof.
  repeat split.
Qed.

(** C7: a candidate whose name does not end in ".zip" (compared code unit
    for code unit) sets the status to [error] with the message
    "Only .zip archives are supported." and leaves the selected archive,
    whether there was one or not, as it was. *)
Theorem select_rejects_other_suffix (s : State) (f : File) :
  endsWith (name f) ".zip" = false ->
  status (select (Some f) s) = error
  /\ statusMessage (select (Some f) s)
     = JStr "Only .zip archives are supported."
  /\ selectedArchive (select (Some f) s) = selectedArchive s.
Proof.
  intros H. unfold select, exec.
  rewrite (handleArchiveSelect_rejected f H). repeat split.
Qed.

Lemma select_rejects_other_suffix_witness :
  endsWith (name notes_txt) ".zip" = false
  /\ status (select (Some notes_txt) state_with_project) = error
  /\ statusMessage (select (Some notes_txt) state_with_project)
     = JStr "Only .zip archives are supported."
  /\ selectedArchive (select (Some notes_txt) state_with_project)
     = Some project_zip.
Proof.
  split; [reflexivity | ].
  apply (select_rejects_other_suffix state_with_project notes_txt).
  reflexivity.
Defined.

(** C4, as amended: a candidate whose name ends in ".zip" sets the status
    to [idle], empties the status message and becomes the selected archive;
    the log lines (and the build options) are left as they were. *)
Theorem select_accepts_zip (s : State) (f : File) :
  endsWith (name f) ".zip" = true ->
  status (select (Some f) s) = idle
  /\ statusMessage (select (Some f) s) = JStr ""
  /\ selectedArchive (select (Some f) s) = Some f
  /\ logs (select (Some f) s) = logs s
  /\ formState (select (Some f) s) = formState s.
Proof.
  intros H. unfold select, exec.
  rewrite (handleArchiveSelect_accepted f H). repeat split.
Qed.

Lemma select_accepts_zip_witness :
  endsWith (name project_zip) ".zip" = true
  /\ status (select (Some project_zip) state_after_failure) = idle
  /\ statusMessage (select (Some project_zip) state_after_failure) = JStr ""
  /\ selectedArchive (select (Some project_zip) state_after_failure)
     = Some project_zip
  /\ logs (select (Some project_zip) state_after_failure)
     = [JStr "line1"; JStr "line2"]
  /\ formState (select (Some project_zip) state_after_failure)
     = defaultFormState.
Proof.
  split; [reflexivity | ].
  apply (select_accepts_zip state_after_failure project_zip).
  reflexivity.
Defined.

(** C4 as stated fails: accepting "project.zip" after a failed build keeps
    the two log lines of that build. *)
Lemma select_accept_keeps_logs :
  ~ (forall (s : State) (f : File),
        endsWith (name f) ".zip" = true ->
        status (select (Some f) s) = idle
        /\ statusMessage (select (Some f) s) = JStr ""
        /\ logs (select (Some f) s) = []
        /\ selectedArchive (select (Some f) s) = Some f).
Proof.
  intros H.
  destruct (H state_after_failure project_zip eq_refl) as (_ & _ & Hlogs & _).
  discriminate Hlogs.
Qed.

(** ** The default snapshot and reset *)

Lemma reset_state (s : State) : reset s = initialState.
Proof.
  reflexivity.
Qed.

(** C5, as amended: in the default snapshot of the build options, which is
    the initial form state and the form state after a reset, [appName] is
    "MyApplication", [version] is "1.0.0", [entryPoint] is "main.py", [base]
    is "console", and the five other fields are the empty string. *)
Theorem default_snapshot_fields :
  formState initialState = defaultFormState
  /\ (forall s : State, formState (reset s) = defaultFormState)
  /\ entries defaultFormState =
     [ ("appName", "MyApplication"); ("version", "1.0.0");
       ("entryPoint", "main.py"); ("base", "console");
       ("iconPath", ""); ("includes", ""); ("excludes", "");
       ("includeFiles", ""); ("targetName", "") ].
Proof.
  repeat split.
Qed.

(** C5 as stated fails: three fields other than [base] are not empty in
    the default snapshot. *)
Lemma default_snapshot_not_all_empty :
  ~ (base defaultFormState = "console"
     /\ forall key value : string,
          In (key, value) (entries defaultFormState) ->
          key <> "base" -> value = "").
Proof.
  intros [_ H].
  assert (Happ : "MyApplication" = "").
  { apply (H "appName"); [left; reflexivity | discriminate]. }
  discriminate Happ.
Qed.

(** ** Submission *)

(** C2: a submission while no archive is selected ends in the status
    [error] with the message "Upload a project archive before building.";
    its state writes are the emptying of the log lines, that status and
    that message (the status [working] is never written), and its trace
    holds no network call. *)
Theorem submit_without_archive (w : World) (s : State) :
  selectedArchive s = None ->
  status (submit w s) = error
  /\ statusMessage (submit w s)
     = JStr "Upload a project archive before building."
  /\ filter is_state_write (trace (onSubmit w s))
     = [ SetLogs []; SetStatus error;
         SetStatusMessage (JStr "Upload a project archive before building.") ]
  /\ network_calls (trace (onSubmit w s)) = [].
Proof.
  intros Hnone. unfold submit, exec.
  rewrite (onSubmit_no_archive w s Hnone). repeat split.
Qed.

Lemma submit_without_archive_witness :
  selectedArchive initialState = None
  /\ status (submit offline initialState) = error
  /\ statusMessage (submit offline initialState)
     = JStr "Upload a project archive before building."
  /\ filter is_state_write (trace (onSubmit offline initialState))
     = [ SetLogs []; SetStatus error;
         SetStatusMessage (JStr "Upload a project archive before building.") ]
  /\ network_calls (trace (onSubmit offline initialState)) = [].
Proof.
  split; [reflexivity | ].
  apply (submit_without_archive offline initialState). reflexivity.
Defined.

Lemma replay_request_prefix (a : File) (fs : FormState) (s : State) :
  replay (request_prefix a fs) s =
  mkState (formState s) working working_message [] (selectedArchive s).
Proof.
  reflexivity.
Qed.

(** C9: when the request is rejected, or the body of a successful response
    cannot be read as a blob, the submission ends in the status [error];
    the status message is the message of the failure when the failure is
    an instance of Error, and "Unexpected error while building." when it is
    any other value. *)
Theorem submit_thrown_failure (w : World) (s : State) (a : File) (e : thrown) :
  selectedArchive s = Some a ->
  (fetch w "/api/build" "POST" (payload a (formState s)) = inl e
   \/ exists resp : Response,
        fetch w "/api/build" "POST" (payload a (formState s)) = inr resp
        /\ ok resp = true /\ blob resp = inl e) ->
  status (submit w s) = error
  /\ (forall message : string,
         e = ErrorInstance message -> statusMessage (submit w s) = JStr message)
  /\ (forall v : jsval,
         e = NonError v ->
         statusMessage (submit w s) = JStr "Unexpected error while building.").
Proof.
  intros Harch Hfail.
  assert (Hrun : status (submit w s) = error
                 /\ statusMessage (submit w s) = catch_message e).
  { unfold submit, exec.
    destruct Hfail as [Hfetch | (resp & Hfetch & Hok & Hblob)].
    - rewrite (onSubmit_fetch_rejected w s a Harch e Hfetch).
      unfold trace, fst. rewrite replay_app, replay_request_prefix.
      split; reflexivity.
    - rewrite (onSubmit_blob_rejected w s a Harch resp e Hfetch Hok Hblob).
      unfold trace, fst. rewrite replay_app, replay_request_prefix.
      split; reflexivity. }
  destruct Hrun as [Hstatus Hmsg]. split; [exact Hstatus | ].
  split; intros x ->; exact Hmsg.
Qed.

Lemma submit_thrown_failure_witness :
  selectedArchive state_with_project = Some project_zip
  /\ status (submit offline state_with_project) = error
  /\ statusMessage (submit offline state_with_project) = JStr "Failed to fetch"
  /\ status (submit broken_body state_with_project) = error
  /\ statusMessage (submit broken_body state_with_project)
     = JStr "Unexpected error while building.".
Proof.
  split; [reflexivity | ].
  destruct (submit_thrown_failure offline state_with_project project_zip
              (ErrorInstance "Failed to fetch") eq_refl
              (or_introl eq_refl)) as (H1 & H2 & _).
  destruct (submit_thrown_failure broken_body state_with_project project_zip
              (NonError (JStr "stream closed")) eq_refl
              (or_intror
                 (ex_intro _ (mkResponse true (inl (ErrorInstance "unused"))
                                (inl (NonError (JStr "stream closed"))))
                    (conj eq_refl (conj eq_refl eq_refl)))))
    as (H3 & _ & H4).
  split; [exact H1 | ].
  split; [exact (H2 _ eq_refl) | ].
  split; [exact H3 | exact (H4 _ eq_refl)].
Defined.

(** The state after a response that is not ok. *)
Lemma not_ok_final_state (w : World) (s : State) (a : File) (resp : Response) :
  selectedArchive s = Some a ->
  fetch w "/api/build" "POST" (payload a (formState s)) = inr resp ->
  ok resp = false ->
  submit w s =
  replay (failure_events (json resp))
         (mkState (formState s) error working_message [] (Some a)).
Proof.
  intros Harch Hfetch Hok. unfold submit, exec.
  rewrite (onSubmit_not_ok w s a Harch resp Hfetch Hok).
  unfold trace, fst. rewrite replay_app, replay_request_prefix.
  rewrite Harch. reflexivity.
Qed.

(** C1: when the response is not ok the submission ends in the status
    [error].  If the body parses, the status message is its [message], or
    "Build failed." when there is none, and the log lines are its [details]
    when that is an array (and stay empty when it is not); if the body does
    not parse, the status message is "Build failed." and the log lines are
    empty. *)
Theorem submit_not_ok (w : World) (s : State) (a : File) (resp : Response) :
  selectedArchive s = Some a ->
  fetch w "/api/build" "POST" (payload a (formState s)) = inr resp ->
  ok resp = false ->
  status (submit w s) = error
  /\ (forall e : thrown,
         json resp = inl e ->
         statusMessage (submit w s) = JStr "Build failed."
         /\ logs (submit w s) = [])
  /\ (forall v : jsval,
         json resp = inr v ->
         (get_prop v "message" = None ->
          statusMessage (submit w s) = JStr "Build failed.")
         /\ (forall m : jsval,
                get_prop v "message" = Some m -> m <> JNull ->
                statusMessage (submit w s) = m)
         /\ (forall l : list jsval,
                get_prop v "details" = Some (JArr l) -> logs (submit w s) = l)
         /\ ((forall l : list jsval, get_prop v "details" <> Some (JArr l)) ->
             logs (submit w s) = [])).
Proof.
  intros Harch Hfetch Hok.
  rewrite (not_ok_final_state w s a resp Harch Hfetch Hok).
  destruct (json resp) as [e0 | v0].
  - split; [reflexivity | ]. split.
    + intros e _. split; reflexivity.
    + intros v Hv. discriminate Hv.
  - split.
    { destruct v0; try reflexivity. cbn. failure_cases; reflexivity. }
    split; [intros e He; discriminate He | ].
    intros v Hv. injection Hv as <-.
    destruct v0 as [ | b | bits | str | items | props ];
      try (cbn; repeat split; intros; congruence).
    cbn [failure_events get_prop].
    split; [ | split; [ | split]].
    + intros Hm. rewrite Hm. failure_cases; reflexivity.
    + intros m Hm Hnot. rewrite Hm.
      destruct m; try congruence; failure_cases; reflexivity.
    + intros l Hd. rewrite Hd.
      destruct (assoc "message" props) as [[] | ]; reflexivity.
    + intros Hd.
      destruct (assoc "details" props) as [d | ].
      * destruct d; try (exfalso; eapply Hd; reflexivity);
          destruct (assoc "message" props) as [[] | ]; reflexivity.
      * destruct (assoc "message" props) as [[] | ]; reflexivity.
Qed.

(** A [message] that is null counts as none. *)
Lemma not_ok_null_message
      (w : World) (s : State) (a : File) (resp : Response) (v : jsval) :
  selectedArchive s = Some a ->
  fetch w "/api/build" "POST" (payload a (formState s)) = inr resp ->
  ok resp = false ->
  json resp = inr v ->
  get_prop v "message" = Some JNull ->
  statusMessage (submit w s) = JStr "Build failed.".
Proof.
  intros Harch Hfetch Hok Hjson Hm.
  rewrite (not_ok_final_state w s a resp Harch Hfetch Hok), Hjson.
  destruct v as [ | b | bits | str | items | props ]; try discriminate Hm.
  cbn [failure_events get_prop] in *. rewrite Hm.
  failure_cases; reflexivity.
Qed.

Lemma submit_not_ok_witness :
  selectedArchive state_with_project = Some project_zip
  /\ status (submit refusing state_with_project) = error
  /\ statusMessage (submit refusing state_with_project)
     = JStr "bad entry point"
  /\ logs (submit refusing state_with_project) = [JStr "line1"; JStr "line2"].
Proof.
  split; [reflexivity | ].
  destruct (submit_not_ok refusing state_with_project project_zip
              bad_entry_point eq_refl eq_refl eq_refl) as (H1 & _ & H2).
  destruct (H2 bad_entry_point_body eq_refl) as (_ & H3 & H4 & _).
  split; [exact H1 | ].
  split; [apply H3; [reflexivity | discriminate] | ].
  apply H4. reflexivity.
Defined.

Example garbled_body_example :
  let w := mkWorld (fun _ _ _ => inr garbled) (fun _ => "blob:0") in
  status (submit w state_with_project) = error
  /\ statusMessage (submit w state_with_project) = JStr "Build failed."
  /\ logs (submit w state_with_project) = [].
Proof.
  repeat split.
Qed.

(** ** The request *)

Lemma nonempty_true (t : string) : nonempty t = true <-> t <> "".
Proof.
  unfold nonempty. rewrite Bool.negb_true_iff. split.
  - intros H ->. discriminate H.
  - intros H. apply String.eqb_neq. exact H.
Qed.

Lemma append_fold (l : list (string * string)) (init : FormData) :
  fold_left
    (fun p kv =>
       if nonempty (snd kv) then append p (fst kv) (TextPart (snd kv)) else p)
    l init
  = init ++ map text_part (filter has_value l).
Proof.
  revert init. induction l as [ | kv l IH]; intros init; cbn [fold_left].
  - cbn. now rewrite app_nil_r.
  - rewrite IH. cbn [filter]. unfold has_value at 2.
    destruct (nonempty (snd kv)).
    + unfold append. rewrite <- app_assoc. reflexivity.
    + reflexivity.
Qed.

Lemma payload_parts (a : File) (fs : FormState) :
  payload a fs
  = ("bundle", FilePart a) :: map text_part (filter has_value (entries fs)).
Proof.
  unfold payload. rewrite append_fold. reflexivity.
Qed.

Lemma failure_events_offline (body : thrown + jsval) :
  network_calls (failure_events body) = [].
Proof.
  destruct body as [e | v]; [reflexivity | ].
  destruct v as [ | b | bits | str | items | props ]; try reflexivity.
  cbn. failure_cases; reflexivity.
Qed.

(** Every submission with an archive starts with the same five events, and
    nothing after them is a network call. *)
Lemma onSubmit_trace_shape (w : World) (s : State) (a : File) :
  selectedArchive s = Some a ->
  exists tail : list event,
    trace (onSubmit w s) = request_prefix a (formState s) ++ tail
    /\ network_calls tail = [].
Proof.
  intros Harch.
  destruct (fetch w "/api/build" "POST" (payload a (formState s)))
    as [e | resp] eqn:Hfetch.
  - rewrite (onSubmit_fetch_rejected w s a Harch e Hfetch).
    eexists. split; reflexivity.
  - destruct (ok resp) eqn:Hok.
    + destruct (blob resp) as [e | b] eqn:Hblob.
      * rewrite (onSubmit_blob_rejected w s a Harch resp e Hfetch Hok Hblob).
        eexists. split; reflexivity.
      * rewrite (onSubmit_downloaded w s a Harch resp b Hfetch Hok Hblob).
        eexists. split; reflexivity.
    + rewrite (onSubmit_not_ok w s a Harch resp Hfetch Hok).
      eexists. split; [reflexivity | ].
      cbn. apply failure_events_offline.
Qed.

(** X18: no failure escapes the handler: whatever the world answers (a
    rejected request, a response that is not ok with any body, a body that
    cannot be read), [onSubmit] returns and does not throw. *)
Lemma onSubmit_returns (w : World) (s : State) :
  outcome (onSubmit w s) = Ok tt.
Proof.
  destruct (selectedArchive s) as [a | ] eqn:Harch.
  - destruct (fetch w "/api/build" "POST" (payload a (formState s)))
      as [e | resp] eqn:Hfetch.
    + rewrite (onSubmit_fetch_rejected w s a Harch e Hfetch). reflexivity.
    + destruct (ok resp) eqn:Hok.
      * destruct (blob resp) as [e | b] eqn:Hblob.
        -- rewrite (onSubmit_blob_rejected w s a Harch resp e Hfetch Hok Hblob).
           reflexivity.
        -- rewrite (onSubmit_downloaded w s a Harch resp b Hfetch Hok Hblob).
           reflexivity.
      * rewrite (onSubmit_not_ok w s a Harch resp Hfetch Hok). reflexivity.
  - rewrite (onSubmit_no_archive w s Harch). reflexivity.
Qed.

(** C6: a submission with an archive selected issues one request, whose
    body holds the archive under "bundle" followed by one text part for
    each build option whose value is not empty, under the name of the
    option and in the order of the options; an option whose value is the
    empty string has no part. *)
Theorem submit_payload_sparse (w : World) (s : State) (a : File) :
  selectedArchive s = Some a ->
  network_calls (trace (onSubmit w s))
  = [Fetch "/api/build" "POST" (payload a (formState s))]
  /\ payload a (formState s)
     = ("bundle", FilePart a)
       :: map text_part (filter has_value (entries (formState s)))
  /\ (forall key value : string,
         In (key, TextPart value) (payload a (formState s))
         <-> In (key, value) (entries (formState s)) /\ value <> "")
  /\ (forall (key : string) (f : File),
         In (key, FilePart f) (payload a (formState s))
         <-> key = "bundle" /\ f = a).
Proof.
  intros Harch. split; [ | split; [apply payload_parts | split]].
  - destruct (onSubmit_trace_shape w s a Harch) as (tail & -> & Htail).
    unfold network_calls in *. rewrite filter_app, Htail. reflexivity.
  - intros key value. rewrite payload_parts. split.
    + intros [Hin | Hin]; [discriminate Hin | ].
      apply in_map_iff in Hin. destruct Hin as ([k v] & Heq & Hin).
      unfold text_part in Heq. cbn in Heq. injection Heq as -> ->.
      apply filter_In in Hin. destruct Hin as [Hin Hval].
      split; [exact Hin | ]. apply nonempty_true. exact Hval.
    + intros [Hin Hval]. right.
      apply in_map_iff. exists (key, value). split; [reflexivity | ].
      apply filter_In. split; [exact Hin | ].
      apply nonempty_true. exact Hval.
  - intros key f. rewrite payload_parts. split.
    + intros [Hin | Hin].
      * injection Hin as <- <-. split; reflexivity.
      * apply in_map_iff in Hin. destruct Hin as (kv & Heq & _).
        discriminate Heq.
    + intros [-> ->]. left. reflexivity.
Qed.

Lemma submit_payload_sparse_witness :
  selectedArchive state_my_app = Some project_zip
  /\ network_calls (trace (onSubmit offline state_my_app))
     = [ Fetch "/api/build" "POST"
           [ ("bundle", FilePart project_zip);
             ("appName", TextPart "My App");
             ("entryPoint", TextPart "main.py");
             ("base", TextPart "gui");
             ("includes", TextPart "numpy,requests") ] ].
Proof.
  split; [reflexivity | ].
  destruct (submit_payload_sparse offline state_my_app project_zip eq_refl)
    as (Hcalls & _).
  exact Hcalls.
Defined.

(** ** The log lines at the start of a submission *)

Lemma nth_error_fetch_free (t : list event) (n : nat) (ev : event) :
  network_calls t = [] -> nth_error t n = Some ev -> is_fetch ev = false.
Proof.
  intros Hfree Hnth. apply nth_error_In in Hnth.
  destruct (is_fetch ev) eqn:Hev; [ | reflexivity].
  assert (Hin : In ev (network_calls t)).
  { apply filter_In. split; assumption. }
  rewrite Hfree in Hin. destruct Hin.
Qed.

Lemma onSubmit_head (w : World) (s : State) :
  exists rest : list event,
    trace (onSubmit w s) = PreventDefault :: SetLogs [] :: rest.
Proof.
  unfold onSubmit. rewrite trace_emit_bind. unfold setLogs.
  rewrite trace_emit_bind. eexists. reflexivity.
Qed.

(** C8: the trace of every submission starts with preventDefault and the
    write that empties the log lines; that write is the first state write,
    it is the same whether an archive is selected or not, and whenever the
    request is issued the log lines are empty.  So a submission that
    follows another one starts with empty log lines, whatever the first one
    left there. *)
Theorem submit_clears_logs_first (w : World) (s : State) :
  (exists rest : list event,
      trace (onSubmit w s) = PreventDefault :: SetLogs [] :: rest)
  /\ find is_state_write (trace (onSubmit w s)) = Some (SetLogs [])
  /\ logs (replay (firstn 2 (trace (onSubmit w s))) s) = []
  /\ (forall (n : nat) (ev : event),
         nth_error (trace (onSubmit w s)) n = Some ev ->
         is_fetch ev = true ->
         2 <= n /\ logs (replay (firstn n (trace (onSubmit w s))) s) = [])
  /\ (forall (w0 : World) (s0 : State),
         logs (replay (firstn 2 (trace (onSubmit w (submit w0 s0))))
                      (submit w0 s0)) = []).
Proof.
  destruct (onSubmit_head w s) as [rest Hhead].
  split; [exists rest; exact Hhead | ].
  split; [rewrite Hhead; reflexivity | ].
  split; [rewrite Hhead; reflexivity | ].
  split.
  - clear rest Hhead. intros n ev Hnth Hev.
    destruct (selectedArchive s) as [a | ] eqn:Harch.
    + destruct (onSubmit_trace_shape w s a Harch) as (tail & Htrace & Htail).
      rewrite Htrace in *.
      do 5 (destruct n as [ | n];
            [ cbn in Hnth; injection Hnth as <-;
              first [discriminate Hev | split; [lia | reflexivity]] | ]).
      cbn in Hnth.
      rewrite (nth_error_fetch_free tail n ev Htail Hnth) in Hev.
      discriminate Hev.
    + rewrite (onSubmit_no_archive w s Harch) in Hnth.
      do 4 (destruct n as [ | n]; [cbn in Hnth; injection Hnth as <-;
                                   discriminate Hev | ]).
      destruct n; discriminate Hnth.
  - intros w0 s0. destruct (onSubmit_head w (submit w0 s0)) as [rest0 ->].
    reflexivity.
Qed.

Lemma submit_clears_logs_first_witness :
  logs (submit refusing state_with_project) = [JStr "line1"; JStr "line2"]
  /\ nth_error
       (trace (onSubmit offline (submit refusing state_with_project))) 4
     = Some (Fetch "/api/build" "POST"
               (payload project_zip defaultFormState))
  /\ logs (replay
             (firstn 4
                (trace (onSubmit offline
                          (submit refusing state_with_project))))
             (submit refusing state_with_project)) = [].
Proof.
  split; [reflexivity | ].
  split; [reflexivity | ].
  destruct (submit_clears_logs_first offline
              (submit refusing state_with_project))
    as (_ & _ & _ & Hfetch & _).
  apply (Hfetch 4 (Fetch "/api/build" "POST"
                     (payload project_zip defaultFormState))).
  - reflexivity.
  - reflexivity.
Defined.

(** ** The name of the downloaded file *)

Lemma replace_runs_skip (t : string) :
  replace_runs true t = replace_runs false (skip_spaces t).
Proof.
  induction t as [ | c t IH]; [reflexivity | ].
  cbn [replace_runs skip_spaces].
  destruct (is_space c) eqn:Hc; [exact IH | ].
  cbn [replace_runs]. rewrite Hc. reflexivity.
Qed.

(** X19: [replace_spaces] is the replacement of the leftmost, longest
    matches of \s+: a code unit that is not white space is copied, and a
    code unit that is white space is replaced by a hyphen together with all
    the white space that follows it. *)
Lemma replace_spaces_equations :
  replace_spaces "" = ""
  /\ (forall (c : ascii) (t : string),
         is_space c = false ->
         replace_spaces (String c t) = String c (replace_spaces t))
  /\ (forall (c : ascii) (t : string),
         is_space c = true ->
         replace_spaces (String c t)
         = String "-" (replace_spaces (skip_spaces t))).
Proof.
  unfold replace_spaces. split; [reflexivity | ]. split.
  - intros c t Hc. cbn [replace_runs]. rewrite Hc. reflexivity.
  - intros c t Hc. cbn [replace_runs]. rewrite Hc.
    rewrite replace_runs_skip. reflexivity.
Qed.


Lemma replace_spaces_empty (t : string) :
  replace_spaces t = "" <-> t = "".
Proof.
  split; [ | intros ->; reflexivity].
  destruct t as [ | c t]; [reflexivity | ].
  unfold replace_spaces. cbn [replace_runs].
  destruct (is_space c); discriminate.
Qed.

Lemma toLowerCase_empty (t : string) : toLowerCase t = "" <-> t = "".
Proof.
  split; [ | intros ->; reflexivity].
  destruct t; [reflexivity | discriminate].
Qed.

(** The three cases of [buildName]. *)
Lemma buildName_cases (fs : FormState) :
  (targetName fs <> "" -> buildName fs = targetName fs)
  /\ (targetName fs = "" -> appName fs <> "" ->
      buildName fs = toLowerCase (replace_spaces (appName fs)))
  /\ (targetName fs = "" -> appName fs = "" -> buildName fs = "build").
Proof.
  unfold buildName, or_else. split; [ | split].
  - intros Ht. apply nonempty_true in Ht. rewrite Ht, Ht. reflexivity.
  - intros Ht Ha. rewrite Ht. change (nonempty "") with false. cbv iota.
    assert (Hne : nonempty (toLowerCase (replace_spaces (appName fs))) = true).
    { apply nonempty_true. intros H. apply Ha.
      apply replace_spaces_empty, toLowerCase_empty, H. }
    rewrite Hne. reflexivity.
  - intros Ht Ha. rewrite Ht, Ha. reflexivity.
Qed.

(** C3: after a successful response whose body can be read, the
    submission saves one file.  Its name is the target name followed by
    ".zip" when the target name is not empty; otherwise the application
    name, with each run of white space replaced by one hyphen and then
    lower-cased, followed by ".zip", when the application name is not
    empty; otherwise "build.zip".  So the application name "My App" with an
    empty target name gives "my-app.zip", and the target name "custom"
    gives "custom.zip" whatever the application name is. *)
Theorem submit_download_name
        (w : World) (s : State) (a : File) (resp : Response) (b : Blob) :
  selectedArchive s = Some a ->
  fetch w "/api/build" "POST" (payload a (formState s)) = inr resp ->
  ok resp = true ->
  blob resp = inr b ->
  status (submit w s) = success
  /\ downloads (trace (onSubmit w s))
     = [AnchorClick (createObjectURL w b) (downloadName (formState s))]
  /\ (targetName (formState s) <> "" ->
      downloadName (formState s) = (targetName (formState s) ++ ".zip")%string)
  /\ (targetName (formState s) = "" -> appName (formState s) <> "" ->
      downloadName (formState s)
      = (toLowerCase (replace_spaces (appName (formState s))) ++ ".zip")%string)
  /\ (targetName (formState s) = "" -> appName (formState s) = "" ->
      downloadName (formState s) = "build.zip")
  /\ (targetName (formState s) = "" -> appName (formState s) = "My App" ->
      downloadName (formState s) = "my-app.zip")
  /\ (targetName (formState s) = "custom" ->
      downloadName (formState s) = "custom.zip").
Proof.
  intros Harch Hfetch Hok Hblob.
  destruct (buildName_cases (formState s)) as (Htarget & Happ & Hbuild).
  split.
  { unfold submit, exec.
    rewrite (onSubmit_downloaded w s a Harch resp b Hfetch Hok Hblob).
    reflexivity. }
  split.
  { rewrite (onSubmit_downloaded w s a Harch resp b Hfetch Hok Hblob).
    reflexivity. }
  unfold downloadName.
  split; [intros Ht; rewrite (Htarget Ht); reflexivity | ].
  split; [intros Ht Ha; rewrite (Happ Ht Ha); reflexivity | ].
  split; [intros Ht Ha; rewrite (Hbuild Ht Ha); reflexivity | ].
  split.
  - intros Ht Ha. rewrite (Happ Ht) by (rewrite Ha; discriminate).
    rewrite Ha. reflexivity.
  - intros Ht. rewrite Htarget by (rewrite Ht; discriminate).
    rewrite Ht. reflexivity.
Qed.

Lemma submit_download_name_witness :
  selectedArchive state_my_app = Some project_zip
  /\ status (submit serving state_my_app) = success
  /\ downloads (trace (onSubmit serving state_my_app))
     = [AnchorClick "blob:0" (downloadName my_app_options)]
  /\ downloadName my_app_options = "my-app.zip".
Proof.
  split; [reflexivity | ].
  destruct (submit_download_name serving state_my_app project_zip
              (mkResponse true (inl (ErrorInstance "unused"))
                          (inr output_bytes))
              output_bytes eq_refl eq_refl eq_refl eq_refl)
    as (H1 & H2 & _ & _ & _ & H3 & _).
  split; [exact H1 | ].
  split; [exact H2 | ].
  apply H3; reflexivity.
Defined.

Example download_name_custom :
  downloadName (mkFormState "Anything at all" "" "" "console" "" "" "" ""
                            "custom") = "custom.zip"
  /\ downloadName (mkFormState "" "" "" "console" "" "" "" "" "")
     = "build.zip"
  /\ downloadName (mkFormState "  Two   Words " "" "" "console" "" "" "" "" "")
     = "-two-words-.zip".
Proof.
  repeat split.
Qed.

(** ** Editing the build options *)

Lemma entries_fields (fs : FormState) :
  entries fs = map (fun k => (field_key k, field_value k fs)) all_fields.
Proof.
  reflexivity.
Qed.

Lemma field_key_injective (k k' : Field) :
  field_key k = field_key k' -> k = k'.
Proof.
  destruct k, k'; intros H; try reflexivity; discriminate H.
Qed.

Lemma field_value_with_field_same (k : Field) (v : string) (fs : FormState) :
  field_value k (with_field k v fs) = v.
Proof.
  destruct k; reflexivity.
Qed.

Lemma field_value_with_field_other
      (k k' : Field) (v : string) (fs : FormState) :
  k' <> k -> field_value k' (with_field k v fs) = field_value k' fs.
Proof.
  intros Hne. destruct k, k'; try reflexivity; exfalso; apply Hne; reflexivity.
Qed.

Lemma in_entries_iff (key x : string) (fs : FormState) :
  In (key, x) (entries fs)
  <-> exists k : Field, key = field_key k /\ x = field_value k fs.
Proof.
  rewrite entries_fields, in_map_iff. split.
  - intros (k & Heq & _). injection Heq as <- <-. exists k. split; reflexivity.
  - intros (k & -> & ->). exists k. split; [reflexivity | ].
    destruct k; cbn; tauto.
Qed.

Lemma payload_text_iff (a : File) (fs : FormState) (key x : string) :
  In (key, TextPart x) (payload a fs)
  <-> exists k : Field,
        key = field_key k /\ x = field_value k fs /\ x <> "".
Proof.
  rewrite payload_parts. split.
  - intros [Hin | Hin]; [discriminate Hin | ].
    apply in_map_iff in Hin. destruct Hin as ([k0 v0] & Heq & Hin).
    unfold text_part in Heq. cbn in Heq. injection Heq as -> ->.
    apply filter_In in Hin. destruct Hin as [Hin Hval].
    apply in_entries_iff in Hin. destruct Hin as (k & Hk & Hv).
    exists k. split; [exact Hk | ]. split; [exact Hv | ].
    apply nonempty_true. exact Hval.
  - intros (k & -> & -> & Hne). right.
    apply in_map_iff. exists (field_key k, field_value k fs).
    split; [reflexivity | ]. apply filter_In. split.
    + apply in_entries_iff. exists k. split; reflexivity.
    + apply nonempty_true. exact Hne.
Qed.

(** X2: an edit of one build option stores the new value in that option
    and leaves the eight other options, the status, the status message, the
    log lines and the selected archive as they were. *)
Theorem field_change_frame (k : Field) (v : string) (s : State) :
  field_value k (formState (onFieldChange k v s)) = v
  /\ (forall k' : Field,
         k' <> k ->
         field_value k' (formState (onFieldChange k v s))
         = field_value k' (formState s))
  /\ status (onFieldChange k v s) = status s
  /\ statusMessage (onFieldChange k v s) = statusMessage s
  /\ logs (onFieldChange k v s) = logs s
  /\ selectedArchive (onFieldChange k v s) = selectedArchive s.
Proof.
  split; [apply field_value_with_field_same | ].
  split; [intros k' Hne; apply field_value_with_field_other; exact Hne | ].
  repeat split.
Qed.

Lemma field_change_frame_witness :
  field_value FTargetName
    (formState (onFieldChange FAppName "Tool" state_after_failure)) = ""
  /\ field_value FAppName
       (formState (onFieldChange FAppName "Tool" state_after_failure)) = "Tool".
Proof.
  destruct (field_change_frame FAppName "Tool" state_after_failure)
    as (Hsame & Hother & _).
  split; [ | exact Hsame].
  rewrite (Hother FTargetName); [reflexivity | discriminate].
Defined.

(** X3: edits compose as writes to independent slots: of two edits of the
    same option the later one wins, edits of different options commute,
    and an edit that types the value already there changes nothing. *)
Theorem field_changes_compose
        (k k' : Field) (v v' : string) (s : State) :
  onFieldChange k v (onFieldChange k v' s) = onFieldChange k v s
  /\ (k <> k' ->
      onFieldChange k v (onFieldChange k' v' s)
      = onFieldChange k' v' (onFieldChange k v s))
  /\ onFieldChange k (field_value k (formState s)) s = s.
Proof.
  split; [destruct k; reflexivity | ]. split.
  - intros Hne. destruct k, k'; try reflexivity; exfalso; apply Hne; reflexivity.
  - destruct s as [fs st m l a]. destruct fs. destruct k; reflexivity.
Qed.

Lemma field_changes_compose_witness :
  onFieldChange FVersion "2.0" (onFieldChange FBase "gui" initialState)
  = onFieldChange FBase "gui" (onFieldChange FVersion "2.0" initialState).
Proof.
  destruct (field_changes_compose FVersion FBase "2.0" "gui" initialState)
    as (_ & Hcomm & _).
  apply Hcomm. discriminate.
Defined.

(** X4: after an edit of an option, the request body of a submission has
    a part for that option exactly when the typed value is not empty, that
    part carries the typed value, and the parts of the other options are
    the ones the body had before the edit. *)
Theorem payload_after_field_change
        (a : File) (k : Field) (v : string) (s : State) :
  (In (field_key k, TextPart v)
      (payload a (formState (onFieldChange k v s))) <-> v <> "")
  /\ (forall x : string,
         In (field_key k, TextPart x)
            (payload a (formState (onFieldChange k v s))) -> x = v)
  /\ (forall (k' : Field) (x : string),
         k' <> k ->
         (In (field_key k', TextPart x)
             (payload a (formState (onFieldChange k v s)))
          <-> In (field_key k', TextPart x) (payload a (formState s)))).
Proof.
  change (formState (onFieldChange k v s))
    with (with_field k v (formState s)).
  split; [ | split].
  - rewrite payload_text_iff. split.
    + intros (k0 & _ & _ & Hne). exact Hne.
    + intros Hne. exists k. split; [reflexivity | ].
      split; [ | exact Hne]. symmetry. apply field_value_with_field_same.
  - intros x Hin. apply payload_text_iff in Hin.
    destruct Hin as (k0 & Hk & Hx & _).
    apply field_key_injective in Hk. subst k0.
    rewrite field_value_with_field_same in Hx. exact Hx.
  - intros k' x Hne. rewrite !payload_text_iff. split.
    + intros (k0 & Hk & Hx & Hnx).
      apply field_key_injective in Hk. subst k0.
      rewrite (field_value_with_field_other k k' v _ Hne) in Hx.
      exists k'. repeat split; assumption.
    + intros (k0 & Hk & Hx & Hnx).
      apply field_key_injective in Hk. subst k0.
      exists k'. split; [reflexivity | ]. split; [ | exact Hnx].
      rewrite (field_value_with_field_other k k' v _ Hne). exact Hx.
Qed.

Lemma payload_after_field_change_witness :
  ~ In ("appName", TextPart "")
       (payload project_zip
          (formState (onFieldChange FAppName "" state_with_project)))
  /\ In ("version", TextPart "1.0.0")
        (payload project_zip
           (formState (onFieldChange FAppName "" state_with_project))).
Proof.
  destruct (payload_after_field_change project_zip FAppName ""
              state_with_project) as (Hsame & _ & Hother).
  split.
  - intros Hin. apply Hsame in Hin. apply Hin. reflexivity.
  - apply (Hother FVersion "1.0.0"); [discriminate | ].
    cbn. tauto.
Defined.

Lemma NoDup_keys_filter (f : string * string -> bool)
      (l : list (string * string)) :
  NoDup (map fst l) -> NoDup (map fst (filter f l)).
Proof.
  induction l as [ | kv l IH]; intros Hnd; [constructor | ].
  cbn in Hnd. inversion Hnd as [ | x xs Hnot Hrest]; subst.
  cbn [filter]. destruct (f kv); [ | apply IH; exact Hrest].
  cbn. constructor; [ | apply IH; exact Hrest].
  intros Hin. apply Hnot.
  apply in_map_iff in Hin. destruct Hin as (kv' & Heq & Hin).
  apply filter_In in Hin. destruct Hin as [Hin _].
  apply in_map_iff. exists kv'. split; assumption.
Qed.

Lemma NoDup_entry_keys (fs : FormState) : NoDup (map fst (entries fs)).
Proof.
  cbn. repeat constructor; cbn; intuition discriminate.
Qed.

(** X5: the request body never names a part twice: its keys are pairwise
    distinct, the first part is the archive under "bundle", and it has one
    part more than there are options with a value, so between one and ten
    parts. *)
Theorem payload_keys_distinct (a : File) (fs : FormState) :
  NoDup (map fst (payload a fs))
  /\ hd_error (payload a fs) = Some ("bundle", FilePart a)
  /\ List.length (payload a fs)
     = 1 + List.length (filter has_value (entries fs))
  /\ 1 <= List.length (payload a fs) <= 10.
Proof.
  rewrite payload_parts. split; [ | split; [reflexivity | split]].
  - cbn [map fst]. rewrite map_map.
    change (fun x : string * string => fst (text_part x))
      with (fun x : string * string => fst x).
    constructor.
    + intros Hin. apply in_map_iff in Hin. destruct Hin as ([k0 v0] & Hk & Hin).
      apply filter_In in Hin. destruct Hin as [Hin _].
      apply in_entries_iff in Hin. destruct Hin as (k & -> & _).
      cbn in Hk. destruct k; discriminate Hk.
    + apply NoDup_keys_filter, NoDup_entry_keys.
  - cbn [List.length]. rewrite length_map. reflexivity.
  - cbn [List.length]. rewrite length_map.
    assert (H := filter_length_le has_value (entries fs)).
    cbn [entries List.length] in H. cbn [entries]. lia.
Qed.

(** ** Which files the guard lets in *)

Lemma select_some (f : File) (s : State) :
  select (Some f) s
  = if endsWith (name f) ".zip"
    then mkState (formState s) idle (JStr "") (logs s) (Some f)
    else mkState (formState s) error
                 (JStr "Only .zip archives are supported.") (logs s)
                 (selectedArchive s).
Proof.
  unfold select, exec. destruct (endsWith (name f) ".zip") eqn:H.
  - rewrite (handleArchiveSelect_accepted f H). reflexivity.
  - rewrite (handleArchiveSelect_rejected f H). reflexivity.
Qed.

Lemma endsWith_short (t suffix : string) :
  String.length t < String.length suffix -> endsWith t suffix = false.
Proof.
  intros Hlt. unfold endsWith.
  replace (Nat.leb (String.length suffix) (String.length t)) with false;
    [reflexivity | ].
  symmetry. apply Nat.leb_gt. exact Hlt.
Qed.

(** X6: the guard accepts a candidate exactly when its name is some text,
    possibly empty, followed by ".zip": then and only then the status
    becomes [idle] and the candidate becomes the selected archive; in every
    other case the status becomes [error].  A name of fewer than four code
    units is always refused. *)
Theorem select_accepts_exactly_zip_names (s : State) (f : File) :
  (status (select (Some f) s) = idle
   <-> exists p : string, name f = (p ++ ".zip")%string)
  /\ (status (select (Some f) s) = error
      <-> ~ exists p : string, name f = (p ++ ".zip")%string)
  /\ ((exists p : string, name f = (p ++ ".zip")%string) ->
      selectedArchive (select (Some f) s) = Some f)
  /\ (String.length (name f) < 4 -> status (select (Some f) s) = error).
Proof.
  rewrite select_some. rewrite <- endsWith_spec.
  split; [ | split; [ | split]].
  - destruct (endsWith (name f) ".zip"); cbn; split; congruence.
  - destruct (endsWith (name f) ".zip"); cbn; split; congruence.
  - intros ->. reflexivity.
  - intros Hlen. rewrite (endsWith_short (name f) ".zip" Hlen). reflexivity.
Qed.

Lemma select_accepts_exactly_zip_names_witness :
  selectedArchive (select (Some dot_zip) state_after_failure) = Some dot_zip
  /\ status (select (Some (mkFile "zip" [])) state_with_project) = error.
Proof.
  destruct (select_accepts_exactly_zip_names state_after_failure dot_zip)
    as (_ & _ & Hsel & _).
  destruct (select_accepts_exactly_zip_names state_with_project
              (mkFile "zip" [])) as (_ & _ & _ & Hshort).
  split.
  - apply Hsel. exists "". reflexivity.
  - apply Hshort. cbn. lia.
Defined.

(** X7: a drop or a choice of several files looks at the first one only:
    it has the effect of offering that file to the guard, whatever the
    other files are, and with no file at all (or a null list) it has the
    effect of offering null, which clears the selected archive and leaves
    the status as it was. *)
Theorem drop_uses_first_file (s : State) :
  (forall (f : File) (others : list File),
      exec (onDrop (f :: others)) s = select (Some f) s
      /\ exec (onFileInputChange (Some (f :: others))) s = select (Some f) s)
  /\ exec (onDrop []) s = select None s
  /\ exec (onFileInputChange (Some [])) s = select None s
  /\ exec (onFileInputChange None) s = select None s
  /\ (forall (f : File) (others : list File),
         endsWith (name f) ".zip" = false ->
         selectedArchive (exec (onDrop (f :: others)) s) = selectedArchive s
         /\ status (exec (onDrop (f :: others)) s) = error).
Proof.
  assert (Hdrop : forall files : list File,
             exec (onDrop files) s = select (first_file files) s).
  { intros files. unfold exec, select, exec, onDrop.
    rewrite trace_emit_bind. reflexivity. }
  split; [intros f others; split; [apply Hdrop | reflexivity] | ].
  split; [apply Hdrop | ].
  split; [reflexivity | ].
  split; [reflexivity | ].
  intros f others Hrej. rewrite (Hdrop (f :: others)).
  cbn [first_file]. rewrite select_some, Hrej. split; reflexivity.
Qed.

Lemma drop_uses_first_file_witness :
  selectedArchive (exec (onDrop [notes_txt; project_zip]) initialState) = None
  /\ status (exec (onDrop [notes_txt; project_zip]) initialState) = error.
Proof.
  destruct (drop_uses_first_file initialState) as (_ & _ & _ & _ & Hrej).
  apply (Hrej notes_txt [project_zip]). reflexivity.
Defined.

(** ** The outcome of a submission *)

(** The five ways through [onSubmit]. *)
Lemma onSubmit_paths (w : World) (s : State) :
  (selectedArchive s = None
   /\ onSubmit w s =
      ([ PreventDefault; SetLogs []; SetStatus error;
         SetStatusMessage (JStr "Upload a project archive before building.") ],
       Ok tt))
  \/ (exists (a : File) (e : thrown),
         selectedArchive s = Some a
         /\ fetch w "/api/build" "POST" (payload a (formState s)) = inl e
         /\ onSubmit w s =
            (request_prefix a (formState s)
             ++ [SetStatus error; SetStatusMessage (catch_message e)], Ok tt))
  \/ (exists (a : File) (resp : Response),
         selectedArchive s = Some a
         /\ fetch w "/api/build" "POST" (payload a (formState s)) = inr resp
         /\ ok resp = false
         /\ onSubmit w s =
            (request_prefix a (formState s)
             ++ SetStatus error :: ReadJson :: failure_events (json resp),
             Ok tt))
  \/ (exists (a : File) (resp : Response) (e : thrown),
         selectedArchive s = Some a
         /\ fetch w "/api/build" "POST" (payload a (formState s)) = inr resp
         /\ ok resp = true
         /\ onSubmit w s =
            (request_prefix a (formState s)
             ++ [ReadBlob; SetStatus error; SetStatusMessage (catch_message e)],
             Ok tt))
  \/ (exists (a : File) (resp : Response) (b : Blob),
         selectedArchive s = Some a
         /\ fetch w "/api/build" "POST" (payload a (formState s)) = inr resp
         /\ ok resp = true
         /\ onSubmit w s =
            (request_prefix a (formState s)
             ++ [ ReadBlob; CreateObjectURL b;
                  AnchorClick (createObjectURL w b)
                              (downloadName (formState s));
                  RevokeObjectURL (createObjectURL w b);
                  SetStatus success; SetStatusMessage success_message ],
             Ok tt)).
Proof.
  destruct (selectedArchive s) as [a | ] eqn:Harch.
  - right.
    destruct (fetch w "/api/build" "POST" (payload a (formState s)))
      as [e | resp] eqn:Hfetch.
    + left. exists a, e.
      split; [reflexivity | ]. split; [exact Hfetch | ].
      exact (onSubmit_fetch_rejected w s a Harch e Hfetch).
    + right. destruct (ok resp) eqn:Hok.
      * right. destruct (blob resp) as [e | b] eqn:Hblob.
        -- left. exists a, resp, e.
           split; [reflexivity | ]. split; [exact Hfetch | ].
           split; [exact Hok | ].
           exact (onSubmit_blob_rejected w s a Harch resp e Hfetch Hok Hblob).
        -- right. exists a, resp, b.
           split; [reflexivity | ]. split; [exact Hfetch | ].
           split; [exact Hok | ].
           exact (onSubmit_downloaded w s a Harch resp b Hfetch Hok Hblob).
      * left. exists a, resp.
        split; [reflexivity | ]. split; [exact Hfetch | ].
        split; [exact Hok | ].
        exact (onSubmit_not_ok w s a Harch resp Hfetch Hok).
  - left. split; [reflexivity | ]. apply onSubmit_no_archive. exact Harch.
Qed.








Lemma failure_events_writes (body : thrown + jsval) :
  forallb is_state_write (failure_events body) = true.
Proof.
  destruct body as [e | v]; [reflexivity | ].
  destruct v as [ | b | bits | str | items | props ]; try reflexivity.
  cbn [failure_events get_prop].
  destruct (assoc "details" props) as [[] | ]; reflexivity.
Qed.

Lemma filter_state_writes (f : event -> bool) (t : list event) :
  (forall ev : event, is_state_write ev = true -> f ev = false) ->
  forallb is_state_write t = true ->
  filter f t = [].
Proof.
  intros Hf. induction t as [ | ev t IH]; intros Hall; [reflexivity | ].
  cbn in Hall. apply andb_prop in Hall. destruct Hall as [Hev Ht].
  cbn. rewrite (Hf ev Hev). apply IH. exact Ht.
Qed.



(** X11: the body of a response is read once and in one way only: as a
    blob when the response is ok, as JSON when it is not ok; without an
    archive, or when the request is rejected, no body is read. *)
Theorem body_read_once (w : World) (s : State) :
  filter is_body_read (trace (onSubmit w s))
  = match selectedArchive s with
    | None => []
    | Some a =>
        match fetch w "/api/build" "POST" (payload a (formState s)) with
        | inl _ => []
        | inr resp => if ok resp then [ReadBlob] else [ReadJson]
        end
    end.
Proof.
  destruct (onSubmit_paths w s)
    as [ (Harch & ->)
       | [ (a & e & Harch & Hfetch & ->)
         | [ (a & resp & Harch & Hfetch & Hok & ->)
           | [ (a & resp & e & Harch & Hfetch & Hok & ->)
             | (a & resp & b & Harch & Hfetch & Hok & ->) ]]]];
    rewrite Harch; try rewrite Hfetch; try rewrite Hok; try reflexivity.
  unfold trace, fst. rewrite filter_app. cbn. f_equal.
  apply filter_state_writes; [ | apply failure_events_writes].
  intros ev Hev. destruct ev; try discriminate Hev; reflexivity.
Qed.

(** X12: when the response is not ok, a body that parses to null, and a
    body whose [message] is null, give the message "Build failed." as if
    there were no message; a null body also leaves the log lines empty. *)
Theorem not_ok_null_is_absent
        (w : World) (s : State) (a : File) (resp : Response) :
  selectedArchive s = Some a ->
  fetch w "/api/build" "POST" (payload a (formState s)) = inr resp ->
  ok resp = false ->
  (json resp = inr JNull ->
   statusMessage (submit w s) = JStr "Build failed."
   /\ logs (submit w s) = [])
  /\ (forall v : jsval,
         json resp = inr v ->
         get_prop v "message" = Some JNull ->
         statusMessage (submit w s) = JStr "Build failed.").
Proof.
  intros Harch Hfetch Hok.
  rewrite (not_ok_final_state w s a resp Harch Hfetch Hok). split.
  - intros ->. split; reflexivity.
  - intros v -> Hm.
    destruct v as [ | b | bits | str | items | props ]; try discriminate Hm.
    cbn [failure_events get_prop] in *. rewrite Hm.
    destruct (assoc "details" props) as [[] | ]; reflexivity.
Qed.

Lemma not_ok_null_is_absent_witness :
  statusMessage
    (submit (mkWorld (fun _ _ _ => inr null_message) (fun _ => "blob:0"))
            state_with_project)
  = JStr "Build failed.".
Proof.
  destruct (not_ok_null_is_absent
              (mkWorld (fun _ _ _ => inr null_message) (fun _ => "blob:0"))
              state_with_project project_zip null_message
              eq_refl eq_refl eq_refl) as (_ & Hnull).
  apply (Hnull (JObj [("message", JNull); ("details", JArr [JStr "x"])]));
    reflexivity.
Defined.



(** ** More on the name of the downloaded file *)








Lemma buildName_nonempty (fs : FormState) : buildName fs <> "".
Proof.
  destruct (buildName_cases fs) as (Htarget & Happ & Hbuild).
  destruct (string_dec (targetName fs) "") as [Ht | Ht].
  - destruct (string_dec (appName fs) "") as [Ha | Ha].
    + rewrite (Hbuild Ht Ha). discriminate.
    + rewrite (Happ Ht Ha). intros H. apply Ha.
      apply replace_spaces_empty, toLowerCase_empty, H.
  - rewrite (Htarget Ht). exact Ht.
Qed.



(** X15: the name under which the build is saved always is a stem that is
    not empty followed by ".zip", so it has at least five code units, and
    a file of that name would be accepted by the archive guard. *)
Theorem download_name_shape (fs : FormState) (s : State) (d : list Byte.byte) :
  buildName fs <> ""
  /\ downloadName fs = (buildName fs ++ ".zip")%string
  /\ endsWith (downloadName fs) ".zip" = true
  /\ 5 <= String.length (downloadName fs)
  /\ selectedArchive (select (Some (mkFile (downloadName fs) d)) s)
     = Some (mkFile (downloadName fs) d).
Proof.
  assert (Hne := buildName_nonempty fs).
  assert (Hends : endsWith (downloadName fs) ".zip" = true).
  { apply endsWith_spec. exists (buildName fs). reflexivity. }
  split; [exact Hne | ]. split; [reflexivity | ].
  split; [exact Hends | ]. split.
  - unfold downloadName. rewrite length_append.
    destruct (buildName fs); [contradiction | cbn; lia].
  - rewrite select_some. cbn [name]. rewrite Hends. reflexivity.
Qed.

(** ** The page while requests are in flight *)

Lemma failure_events_keep (body : thrown + jsval) :
  forallb keeps_inputs (failure_events body) = true.
Proof.
  destruct body as [e | v]; [reflexivity | ].
  destruct v as [ | b | bits | str | items | props ]; try reflexivity.
  cbn [failure_events get_prop].
  destruct (assoc "details" props) as [[] | ]; reflexivity.
Qed.

(** [onSubmit] never writes the selected archive or the build options. *)
Lemma onSubmit_keeps_inputs (w : World) (s : State) :
  forallb keeps_inputs (trace (onSubmit w s)) = true.
Proof.
  destruct (onSubmit_paths w s)
    as [ (_ & ->)
       | [ (a & e & _ & _ & ->)
         | [ (a & resp & _ & _ & _ & ->)
           | [ (a & resp & e & _ & _ & _ & ->)
             | (a & resp & b & _ & _ & _ & ->) ]]]];
    try reflexivity.
  unfold trace, fst. rewrite forallb_app. cbn. apply failure_events_keep.
Qed.

Lemma until_fetch_app (t : list event) :
  t = fst (until_fetch t) ++ snd (until_fetch t).
Proof.
  induction t as [ | ev t IH]; [reflexivity | ].
  cbn [until_fetch]. destruct (is_fetch ev); [reflexivity | ].
  destruct (until_fetch t) as [before after]. cbn in *. now rewrite <- IH.
Qed.

Lemma until_fetch_keeps (t : list event) :
  forallb keeps_inputs t = true ->
  forallb keeps_inputs (fst (until_fetch t)) = true
  /\ forallb keeps_inputs (snd (until_fetch t)) = true.
Proof.
  intros H. rewrite (until_fetch_app t), forallb_app in H.
  apply andb_prop in H. exact H.
Qed.

Lemma apply_event_keeps (ev : event) (s : State) :
  keeps_inputs ev = true ->
  selectedArchive (apply_event s ev) = selectedArchive s
  /\ formState (apply_event s ev) = formState s.
Proof.
  intros H. destruct ev; try discriminate H; split; reflexivity.
Qed.

Lemma replay_keeps (t : list event) (s : State) :
  forallb keeps_inputs t = true ->
  selectedArchive (replay t s) = selectedArchive s
  /\ formState (replay t s) = formState s.
Proof.
  revert s. induction t as [ | ev t IH]; intros s H; [split; reflexivity | ].
  cbn in H. apply andb_prop in H. destruct H as [Hev Ht].
  change (replay (ev :: t) s) with (replay t (apply_event s ev)).
  destruct (IH (apply_event s ev) Ht) as [Ha Hf].
  destruct (apply_event_keeps ev s Hev) as [Ha' Hf'].
  split; congruence.
Qed.

Lemma archive_ok_same (s s' : State) :
  selectedArchive s' = selectedArchive s -> archive_ok s -> archive_ok s'.
Proof.
  unfold archive_ok. intros ->. tauto.
Qed.

Lemma select_archive_ok (file : option File) (s : State) :
  archive_ok s -> archive_ok (select file s).
Proof.
  intros Hs. destruct file as [f | ]; [ | exact I].
  rewrite select_some. destruct (endsWith (name f) ".zip") eqn:Hf.
  - exact Hf.
  - exact Hs.
Qed.

Lemma onDrop_select (files : list File) (s : State) :
  exec (onDrop files) s = select (first_file files) s.
Proof.
  unfold exec, select, exec, onDrop. rewrite trace_emit_bind. reflexivity.
Qed.

Lemma resume_ok (i : nat) (pending : list (list event)) (s : State) :
  archive_ok s ->
  Forall (fun t => forallb keeps_inputs t = true) pending ->
  archive_ok (fst (resume i pending s))
  /\ Forall (fun t => forallb keeps_inputs t = true)
            (snd (resume i pending s)).
Proof.
  intros Hs Hall. revert i.
  induction Hall as [ | t more Ht Hmore IH]; intros i; [split; [exact Hs | constructor] | ].
  destruct i as [ | j].
  - destruct t as [ | ev t']; cbn; [split; assumption | ].
    cbn in Ht. apply andb_prop in Ht. destruct Ht as [Hev Ht'].
    split.
    + apply (archive_ok_same s); [ | exact Hs].
      apply apply_event_keeps. exact Hev.
    + constructor; assumption.
  - cbn [resume]. destruct (IH j) as [Hs' Hmore'].
    destruct (resume j more s) as [s' more']. cbn in *.
    split; [exact Hs' | constructor; assumption].
Qed.

Lemma step_ok (p : Page) (act : action) : page_ok p -> page_ok (step p act).
Proof.
  intros [Hs Hall]. destruct act as [k v | files | files | | w | i]; cbn [step].
  - destruct (isBusy (cells p)); [split; assumption | ].
    split; [ | exact Hall]. exact Hs.
  - split; [ | exact Hall]. cbn [cells]. rewrite onDrop_select.
    apply select_archive_ok. exact Hs.
  - split; [ | exact Hall]. cbn [cells].
    apply (select_archive_ok _ (cells p) Hs).
  - destruct (isBusy (cells p)); [split; assumption | ].
    split; [exact I | exact Hall].
  - destruct (isBusy (cells p)); [split; assumption | ].
    destruct (until_fetch_keeps _ (onSubmit_keeps_inputs w (cells p)))
      as [Hbefore Hafter].
    destruct (until_fetch (trace (onSubmit w (cells p)))) as [before after].
    cbn [fst snd] in *. split; cbn [cells inflight].
    + apply (archive_ok_same (cells p)); [ | exact Hs].
      apply replay_keeps. exact Hbefore.
    + destruct (existsb is_fetch before); [ | exact Hall].
      apply Forall_app. split; [exact Hall | ].
      constructor; [exact Hafter | constructor].
  - destruct (resume_ok i (inflight p) (cells p) Hs Hall) as [Hs' Hall'].
    destruct (resume i (inflight p) (cells p)) as [s' pending].
    split; assumption.
Qed.

Lemma run_ok (acts : list action) (p : Page) : page_ok p -> page_ok (run acts p).
Proof.
  revert p. induction acts as [ | act acts IH]; intros p Hp; [exact Hp | ].
  apply (IH (step p act)). apply step_ok. exact Hp.
Qed.

(** X16: whatever the user and the server do, in whatever order (edits,
    drops, file choices, resets, submissions, and responses handled while
    other events come in between), the selected archive, when there is
    one, has a name that ends in ".zip"; so the label of the drop zone is
    the invitation to drop a file or "Selected: " followed by such a
    name. *)
Theorem selected_archive_always_zip (acts : list action) :
  archive_ok (cells (run acts initialPage))
  /\ (dropLabel (cells (run acts initialPage)) = drop_prompt
      \/ exists stem : string,
           dropLabel (cells (run acts initialPage))
           = ("Selected: " ++ stem ++ ".zip")%string).
Proof.
  assert (Hok : page_ok (run acts initialPage)).
  { apply run_ok. split; [exact I | constructor]. }
  destruct Hok as [Harch _]. split; [exact Harch | ].
  unfold archive_ok in Harch. unfold dropLabel.
  destruct (selectedArchive (cells (run acts initialPage))) as [f | ].
  - right. apply endsWith_spec in Harch. destruct Harch as [stem ->].
    exists stem. reflexivity.
  - left. reflexivity.
Qed.

Lemma until_fetch_onSubmit (w : World) (s : State) (a : File) :
  selectedArchive s = Some a ->
  exists tail : list event,
    until_fetch (trace (onSubmit w s))
    = (request_prefix a (formState s), tail).
Proof.
  intros Harch.
  destruct (onSubmit_trace_shape w s a Harch) as (tail & -> & _).
  exists tail. reflexivity.
Qed.

(** A submission that nothing interrupts reaches the state of [submit]. *)
Lemma resume_to_the_end (w : World) (s : State) :
  replay (snd (until_fetch (trace (onSubmit w s))))
         (replay (fst (until_fetch (trace (onSubmit w s)))) s)
  = submit w s.
Proof.
  rewrite <- replay_app, <- until_fetch_app. reflexivity.
Qed.

Lemma step_submit_with_archive (p : Page) (w : World) (a : File) :
  isBusy (cells p) = false ->
  selectedArchive (cells p) = Some a ->
  exists tail : list event,
    step p (ActSubmit w)
    = mkPage (mkState (formState (cells p)) working working_message []
                      (Some a))
             (inflight p ++ [tail]).
Proof.
  intros Hbusy Harch. cbn [step]. rewrite Hbusy.
  destruct (until_fetch_onSubmit w (cells p) a Harch) as (tail & ->).
  exists tail. rewrite replay_request_prefix, Harch. reflexivity.
Qed.

(** X17: while a request is in flight the status is [working], and edits,
    resets and further submissions are ignored; but a drop of a file that
    the guard accepts sets the status to [idle] although the request is
    still unanswered, and a submission made then issues a second request
    beside the first. *)
Theorem drop_while_in_flight (p : Page) (w w' : World) (a f : File) :
  isBusy (cells p) = false ->
  selectedArchive (cells p) = Some a ->
  endsWith (name f) ".zip" = true ->
  isBusy (cells (step p (ActSubmit w))) = true
  /\ List.length (inflight (step p (ActSubmit w)))
     = S (List.length (inflight p))
  /\ (forall (k : Field) (v : string),
         step (step p (ActSubmit w)) (ActChange k v) = step p (ActSubmit w))
  /\ step (step p (ActSubmit w)) ActReset = step p (ActSubmit w)
  /\ step (step p (ActSubmit w)) (ActSubmit w') = step p (ActSubmit w)
  /\ isBusy (cells (step (step p (ActSubmit w)) (ActDrop [f]))) = false
  /\ inflight (step (step p (ActSubmit w)) (ActDrop [f]))
     = inflight (step p (ActSubmit w))
  /\ List.length
       (inflight (step (step (step p (ActSubmit w)) (ActDrop [f]))
                       (ActSubmit w')))
     = 2 + List.length (inflight p).
Proof.
  intros Hbusy Harch Hf.
  destruct (step_submit_with_archive p w a Hbusy Harch) as (tail & ->).
  assert (Hdrop :
            step (mkPage (mkState (formState (cells p)) working
                                  working_message [] (Some a))
                         (inflight p ++ [tail]))
                 (ActDrop [f])
            = mkPage (mkState (formState (cells p)) idle (JStr "") []
                              (Some f))
                     (inflight p ++ [tail])).
  { cbn [step cells inflight]. rewrite onDrop_select. cbn [first_file].
    rewrite select_some, Hf. reflexivity. }
  rewrite Hdrop.
  destruct (step_submit_with_archive
              (mkPage (mkState (formState (cells p)) idle (JStr "") []
                               (Some f))
                      (inflight p ++ [tail]))
              w' f eq_refl eq_refl) as (tail' & ->).
  split; [reflexivity | ].
  split; [cbn [inflight]; rewrite length_app; cbn; lia | ].
  split; [intros k v; reflexivity | ].
  split; [reflexivity | ].
  split; [reflexivity | ].
  split; [reflexivity | ].
  split; [reflexivity | ].
  cbn [inflight]. rewrite !length_app. cbn. lia.
Qed.

Lemma drop_while_in_flight_witness :
  isBusy (cells (step (mkPage state_with_project []) (ActSubmit serving)))
  = true
  /\ isBusy (cells (step (step (mkPage state_with_project [])
                               (ActSubmit serving))
                         (ActDrop [project_zip]))) = false
  /\ List.length
       (inflight (step (step (step (mkPage state_with_project [])
                                   (ActSubmit serving))
                             (ActDrop [project_zip]))
                       (ActSubmit refusing))) = 2.
Proof.
  destruct (drop_while_in_flight (mkPage state_with_project [])
              serving refusing project_zip project_zip
              eq_refl eq_refl eq_refl)
    as (H1 & _ & _ & _ & _ & H2 & _ & H3).
  split; [exact H1 | ]. split; [exact H2 | exact H3].
Defined.

(** X1: a reset, which is possible while the form is not busy, puts the
    five state cells back to their initial values whatever they were, and
    does not touch the submissions still in flight; while the form is busy
    it does nothing.  A submission made right after a reset is refused
    for want of an archive, without a network call. *)
Theorem reset_restores_initial (p : Page) (w : World) :
  (isBusy (cells p) = false ->
   cells (step p ActReset) = initialState
   /\ inflight (step p ActReset) = inflight p)
  /\ (isBusy (cells p) = true -> step p ActReset = p)
  /\ status (submit w (reset (cells p))) = error
  /\ statusMessage (submit w (reset (cells p)))
     = JStr "Upload a project archive before building."
  /\ network_calls (trace (onSubmit w (reset (cells p)))) = [].
Proof.
  split; [ | split].
  - intros Hbusy. cbn [step]. rewrite Hbusy. split; reflexivity.
  - intros Hbusy. cbn [step]. rewrite Hbusy. reflexivity.
  - rewrite reset_state. repeat split.
Qed.

Lemma reset_restores_initial_witness :
  cells (step (mkPage state_after_failure []) ActReset) = initialState.
Proof.
  destruct (reset_restores_initial (mkPage state_after_failure []) offline)
    as (Hreset & _).
  apply Hreset. reflexivity.
Defined.

Lemma until_fetch_prefix (a : File) (fs : FormState) (tail : list event) :
  until_fetch (request_prefix a fs ++ tail) = (request_prefix a fs, tail).
Proof.
  reflexivity.
Qed.

Lemma failure_events_status (body : thrown + jsval) (s0 : State) :
  status (replay (failure_events body) s0) = status s0.
Proof.
  destruct body as [e | v]; [reflexivity | ].
  destruct v as [ | b | bits | str | items | props ]; try reflexivity.
  cbn [failure_events get_prop].
  destruct (assoc "details" props) as [[] | ]; reflexivity.
Qed.

(** X20: the part of a submission that runs once the request is answered
    always writes the status [success] or [error], in whatever state the
    page is by then, and leaves the archive selected by then and the build
    options of then as they are: a file dropped while the request was in
    flight stays selected, next to the verdict on the earlier one. *)
Theorem late_response_overwrites_status
        (w : World) (s s1 : State) (a : File) :
  selectedArchive s = Some a ->
  (status (replay (snd (until_fetch (trace (onSubmit w s)))) s1) = success
   \/ status (replay (snd (until_fetch (trace (onSubmit w s)))) s1) = error)
  /\ selectedArchive (replay (snd (until_fetch (trace (onSubmit w s)))) s1)
     = selectedArchive s1
  /\ formState (replay (snd (until_fetch (trace (onSubmit w s)))) s1)
     = formState s1.
Proof.
  intros Harch. split.
  - destruct (onSubmit_paths w s)
      as [ (Hnone & _)
         | [ (a0 & e & _ & _ & ->)
           | [ (a0 & resp & _ & _ & _ & ->)
             | [ (a0 & resp & e & _ & _ & _ & ->)
               | (a0 & resp & b & _ & _ & _ & ->) ]]]];
      [ congruence | | | | ];
      unfold trace, fst; rewrite until_fetch_prefix; unfold snd.
    + right. reflexivity.
    + right.
      change (replay (SetStatus error :: ReadJson :: failure_events (json resp))
                     s1)
        with (replay (failure_events (json resp))
                     (mkState (formState s1) error (statusMessage s1)
                              (logs s1) (selectedArchive s1))).
      apply failure_events_status.
    + right. reflexivity.
    + left. reflexivity.
  - apply replay_keeps.
    apply until_fetch_keeps, onSubmit_keeps_inputs.
Qed.

Lemma late_response_overwrites_status_witness :
  status (replay (snd (until_fetch (trace (onSubmit serving state_my_app))))
                 (mkState my_app_options idle (JStr "") [] (Some dot_zip)))
  = success
  /\ selectedArchive
       (replay (snd (until_fetch (trace (onSubmit serving state_my_app))))
               (mkState my_app_options idle (JStr "") [] (Some dot_zip)))
     = Some dot_zip.
Proof.
  split; [reflexivity | ].
  apply (late_response_overwrites_status serving state_my_app
           (mkState my_app_options idle (JStr "") [] (Some dot_zip))
           project_zip).
  reflexivity.
Defined.

Lemma replace_spaces_equations_witness :
  replace_spaces " a  b" = "-a-b".
Proof.
  destruct replace_spaces_equations as (_ & Hcopy & Hrun).
  rewrite (Hrun " "%char "a  b" eq_refl). cbn [skip_spaces is_space].
  reflexivity.
Defined.
